(** * PantryFS (mypantry.c): a shallow embedding and its checked properties

    The development follows [src/mypantry.c] and [src/pantryfs_sb.h].
    Integers are [Z] with the C wrap-around written out where the source
    relies on a fixed width; the two bitmaps of the superblock are arrays of
    32-bit words handled with the macros of [pantryfs_sb.h]; the inode store
    and a directory block are arrays of records accessed by slot index.

    The state has two levels, the buffer cache (what [sb_bread] returns and
    what the code mutates in place) and the device (what
    [mark_buffer_dirty]/[sync_dirty_buffer] write back), so that "persisted"
    can be stated.  A block is read through the type the source casts it to
    (superblock, inode store, directory entries, bytes); one block number
    read through two of these types is two entries of the state, and how
    the bytes of one reading show in the other is a matter of the struct
    layouts of pantryfs_inode.h and pantryfs_file.h, of which the
    development knows the sizes only.  A write through one type therefore
    says nothing about what the same block holds when read through another
    type, and the statements on what an operation leaves alone speak of
    the blocks the operation does not write ([same_block]). *)

From stdpp Require Import base numbers option list gmap.

Local Open Scope Z_scope.

(** ** Kernel constants used by the source *)

Definition EPERM : Z := 1.
Definition EIO : Z := 5.
Definition ENOMEM : Z := 12.
Definition EFAULT : Z := 14.
Definition EINVAL : Z := 22.
Definition ENAMETOOLONG : Z := 36.

Definition S_IFMT : Z := 61440.      (* 0170000 *)
Definition S_IFDIR : Z := 16384.     (* 0040000 *)
Definition S_IFREG : Z := 32768.     (* 0100000 *)
Definition O_APPEND : Z := 1024.     (* 02000 *)
Definition I_NEW : Z := 8.           (* 1 << 3 *)

(** ** Constants of pantryfs_sb.h *)

Definition PANTRYFS_MAGIC_NUMBER : Z := 16664.   (* 0x00004118 *)
Definition PFS_BLOCK_SIZE : Z := 4096.
Definition PANTRYFS_ROOT_INODE_NUMBER : Z := 1.
Definition PANTRYFS_SUPERBLOCK_DATABLOCK_NUMBER : Z := 0.
Definition PANTRYFS_INODE_STORE_DATABLOCK_NUMBER : Z := 1.
Definition PANTRYFS_ROOT_DATABLOCK_NUMBER : Z := 2.

(** ** Fixed-width arithmetic *)

(** Value of a [size_t]/[unsigned long] expression. *)
Definition u64 (x : Z) : Z := x mod 2 ^ 64.

(** Value of an [unsigned int] expression. *)
Definition u32 (x : Z) : Z := x mod 2 ^ 32.

(** Value of an [umode_t] ([unsigned short]) expression. *)
Definition u16 (x : Z) : Z := x mod 2 ^ 16.

(** Value of a [ssize_t]/[loff_t] expression obtained from an unsigned one. *)
Definition s64 (x : Z) : Z := (x + 2 ^ 63) mod 2 ^ 64 - 2 ^ 63.

(** ** Bit vectors: the macros of pantryfs_sb.h

    [A] is the array of [uint32_t] words the macro indexes.  An index past
    its last word is a read of the word 0 and a write that is dropped; the
    statements below keep the indices inside [A].  Where the source hands a
    macro a number that the code does not bound ([PFS_remove_inode]), [A] is
    not the one bit vector but the words that lie behind the pointer in the
    superblock ([CLEARBIT_free_inodes] below). *)

Definition word_at (A : list Z) (k : Z) : Z :=
  if k <? 0 then 0 else default 0 (A !! Z.to_nat (k / 32)).

Definition word_upd (f : Z -> Z) (A : list Z) (k : Z) : list Z :=
  if k <? 0 then A else alter f (Z.to_nat (k / 32)) A.

(** [#define SETBIT(A, k)   (A[((k) / 32)] |=  (1 << ((k) % 32)))] *)
Definition SETBIT (A : list Z) (k : Z) : list Z :=
  word_upd (fun w => Z.lor w (Z.shiftl 1 (k mod 32))) A k.

(** [#define CLEARBIT(A, k) (A[((k) / 32)] &= ~(1 << ((k) % 32)))] *)
Definition CLEARBIT (A : list Z) (k : Z) : list Z :=
  word_upd (fun w => u32 (Z.land w (Z.lnot (Z.shiftl 1 (k mod 32))))) A k.

(** [#define IS_SET(A, k)   (A[((k) / 32)] &   (1 << ((k) % 32)))] *)
Definition IS_SET (A : list Z) (k : Z) : Z :=
  Z.land (word_at A k) (Z.shiftl 1 (k mod 32)).

(** The C truth value of an integer expression. *)
Definition truthy (x : Z) : bool := negb (x =? 0).

(** ** Loops that stop at the first hit

    [for (i = k; i < k + n; i++) if (p i) break;] leaves [i] at the first
    index where [p] holds, or at [k + n] when there is none. *)

Fixpoint scan_from (p : Z -> bool) (n : nat) (k : Z) : Z :=
  match n with
  | O => k
  | S n' => if p k then k else scan_from p n' (k + 1)
  end.

(** ** On-disk records

    The structs are declared in pantryfs_inode.h and pantryfs_file.h; the
    fields below are the ones mypantry.c reads and writes. *)

Record timespec64 := mkTime { tv_sec : Z; tv_nsec : Z }.

Record pantryfs_inode := mkPfsInode {
  mode : Z;
  uid : Z;
  gid : Z;
  i_atime : timespec64;
  i_mtime : timespec64;
  i_ctime : timespec64;
  nlink : Z;
  data_block_number : Z;
  file_size : Z
}.

Record pantryfs_dir_entry := mkDentry {
  inode_no : Z;
  active : Z;
  filename : list Z          (* the bytes of the fixed-length buffer *)
}.

(** [struct pantryfs_super_block] without its padding. *)
Record pantryfs_super_block := mkSb {
  version : Z;
  magic : Z;
  free_inodes : list Z;
  free_data_blocks : list Z
}.

#[global] Instance timespec64_eq_dec : EqDecision timespec64.
Proof. solve_decision. Defined.
#[global] Instance pantryfs_inode_eq_dec : EqDecision pantryfs_inode.
Proof. solve_decision. Defined.
#[global] Instance pantryfs_dir_entry_eq_dec : EqDecision pantryfs_dir_entry.
Proof. solve_decision. Defined.
#[global] Instance pantryfs_super_block_eq_dec : EqDecision pantryfs_super_block.
Proof. solve_decision. Defined.

Definition zero_time : timespec64 := mkTime 0 0.

(** What [memset(p, 0, PFS_INODE_SIZE)] leaves in an inode slot. *)
Definition zero_inode : pantryfs_inode :=
  mkPfsInode 0 0 0 zero_time zero_time zero_time 0 0 0.

(** [CLEARBIT(pantry_sb->free_inodes, k)] for a [k] the code does not
    bound.  [PFS_SB_MEMBERS] declares [free_data_blocks] right after
    [free_inodes], both arrays of [uint32_t], so the word
    [free_inodes[k / 32]] with [k / 32] at or past the length of
    [free_inodes] is a word of [free_data_blocks].  A word index past both
    vectors is in the padding of the block, or in memory behind the block,
    neither of which the state holds: that write is dropped here, and the
    statements keep [k] inside the two vectors. *)
Definition CLEARBIT_free_inodes (s : pantryfs_super_block) (k : Z)
    : pantryfs_super_block :=
  let n := length (free_inodes s) in
  let w := CLEARBIT (free_inodes s ++ free_data_blocks s) k in
  mkSb (version s) (magic s) (take n w) (drop n w).

(** ** The in-memory inode of the host ([struct inode])

    Only the fields mypantry.c touches.  The three timestamps carry the
    prefix [v] because the on-disk record already owns the names [i_atime],
    [i_mtime] and [i_ctime]; [i_dirty] records [mark_inode_dirty]. *)

Inductive file_operations := pantryfs_dir_ops | pantryfs_file_ops | no_fops.

Record inode := mkInode {
  i_ino : Z;
  i_mode : Z;
  i_nlink : Z;
  i_uid : Z;
  i_gid : Z;
  vi_atime : timespec64;
  vi_mtime : timespec64;
  vi_ctime : timespec64;
  i_size : Z;
  i_blocks : Z;
  i_state : Z;
  i_fop : file_operations;
  i_dirty : bool
}.

#[global] Instance file_operations_eq_dec : EqDecision file_operations.
Proof. solve_decision. Defined.
#[global] Instance inode_eq_dec : EqDecision inode.
Proof. solve_decision. Defined.

Definition set_i_nlink (i : inode) (n : Z) : inode :=
  mkInode (i_ino i) (i_mode i) n (i_uid i) (i_gid i) (vi_atime i) (vi_mtime i)
    (vi_ctime i) (i_size i) (i_blocks i) (i_state i) (i_fop i) (i_dirty i).

Definition set_i_size (i : inode) (n : Z) : inode :=
  mkInode (i_ino i) (i_mode i) (i_nlink i) (i_uid i) (i_gid i) (vi_atime i)
    (vi_mtime i) (vi_ctime i) n (i_blocks i) (i_state i) (i_fop i) (i_dirty i).

Definition mark_inode_dirty (i : inode) : inode :=
  mkInode (i_ino i) (i_mode i) (i_nlink i) (i_uid i) (i_gid i) (vi_atime i)
    (vi_mtime i) (vi_ctime i) (i_size i) (i_blocks i) (i_state i) (i_fop i) true.

(** [drop_nlink]: the [unsigned int] link count goes down by one. *)
Definition drop_nlink (i : inode) : inode := set_i_nlink i (u32 (i_nlink i - 1)).

(** ** Blocks and the two-level store *)

Record blocks := mkBlocks {
  b_sb : pantryfs_super_block;                    (* block 0 *)
  b_istore : list pantryfs_inode;                 (* block 1 *)
  b_dir : gmap Z (list pantryfs_dir_entry);       (* a block read as directory entries *)
  b_data : gmap Z (list Z)                        (* a block read as bytes *)
}.

(** [buf] is the buffer cache, [dsk] the device, [bad] the blocks for which
    [sb_bread] returns NULL. *)
Record pfs := mkPfs {
  buf : blocks;
  dsk : blocks;
  bad : gset Z
}.

Definition sb_bread (st : pfs) (n : Z) : bool := bool_decide (n ∉ bad st).

Definition set_sb (b : blocks) (s : pantryfs_super_block) : blocks :=
  mkBlocks s (b_istore b) (b_dir b) (b_data b).
Definition set_istore (b : blocks) (l : list pantryfs_inode) : blocks :=
  mkBlocks (b_sb b) l (b_dir b) (b_data b).
Definition set_dir (b : blocks) (n : Z) (l : list pantryfs_dir_entry) : blocks :=
  mkBlocks (b_sb b) (b_istore b) (<[n := l]> (b_dir b)) (b_data b).
Definition set_data (b : blocks) (n : Z) (l : list Z) : blocks :=
  mkBlocks (b_sb b) (b_istore b) (b_dir b) (<[n := l]> (b_data b)).

Definition with_buf (st : pfs) (b : blocks) : pfs := mkPfs b (dsk st) (bad st).
Definition with_dsk (st : pfs) (b : blocks) : pfs := mkPfs (buf st) b (bad st).

(** [mark_buffer_dirty(bh); sync_dirty_buffer(bh);] for each kind of block. *)
Definition sync_sb (st : pfs) : pfs :=
  with_dsk st (set_sb (dsk st) (b_sb (buf st))).
Definition sync_istore (st : pfs) : pfs :=
  with_dsk st (set_istore (dsk st) (b_istore (buf st))).

(** ** Pointers into a block

    A pointer to a record inside a block is its slot index.  An address
    that falls outside the block is [None] for inode number 0 (the
    [unsigned long] subtraction wraps) and an index past the end of the list
    otherwise; a load through it yields a zero record and a store through it
    is dropped, since memory outside the block is not part of the state. *)

(** [PFS_inode_from_istore]: [b_data + (ino - 1) * PFS_INODE_SIZE]. *)
Definition PFS_inode_from_istore (ino : Z) : option nat :=
  if 1 <=? ino then Some (Z.to_nat (ino - 1)) else None.

Definition load_inode (istore : list pantryfs_inode) (p : option nat) : pantryfs_inode :=
  default zero_inode (p ≫= (istore !!.)).

Definition store_inode (istore : list pantryfs_inode) (p : option nat)
    (r : pantryfs_inode) : list pantryfs_inode :=
  match p with
  | Some i => <[i := r]> istore
  | None => istore
  end.

(** [PFS_datablock_no_from_inode] *)
Definition PFS_datablock_no_from_inode (istore : list pantryfs_inode) (i : inode) : Z :=
  data_block_number (load_inode istore (PFS_inode_from_istore (i_ino i))).

(** [PFS_dentry_from_dirblock]: [b_data + i * PFS_DENTRY_SIZE]. *)
Definition PFS_dentry_from_dirblock (i : Z) : nat := Z.to_nat i.

(** ** C strings *)

(** The string a [char *] denotes: the bytes before the first NUL. *)
Fixpoint cstr (b : list Z) : list Z :=
  match b with
  | [] => []
  | c :: b' => if c =? 0 then [] else c :: cstr b'
  end.

(** [strncpy(dst, src, n)] into a buffer of [n] bytes: the string, cut at
    [n] bytes, padded with NULs. *)
Definition strncpy (src : list Z) (n : nat) : list Z :=
  take n (cstr src ++ replicate n 0).

(** [!strcmp(buf, name)] for a buffer that holds a NUL. *)
Definition strcmp_eq (b name : list Z) : bool :=
  bool_decide (cstr b = cstr name).

(** [!strncmp(buf, name, n)] *)
Definition strncmp_eq (b name : list Z) (n : nat) : bool :=
  bool_decide (take n (cstr b) = take n (cstr name)).

(** ** Directory listing: what the host hands to the callback *)

Definition DT_DIR : Z := 4.

Record dirent := mkDirent {
  d_name : list Z;
  d_namelen : Z;
  d_off : Z;
  d_ino : Z;
  d_type : Z
}.

Record dir_context (A : Type) := mkCtx { pos : Z; actor_data : A }.
Arguments mkCtx {A} _ _.
Arguments pos {A} _.
Arguments actor_data {A} _.

(** ** Calls without a result

    A call of the source that uses a NULL pointer ends in the kernel's
    fault handling and hands nothing back to its caller; for a call that
    uses an object it has released the source defines no result either.
    Both are [Faults]. *)

Inductive outcome (A : Type) : Type :=
| Returns (a : A)
| Faults.
Arguments Returns {A} _.
Arguments Faults {A}.

(** ** The layout parameters

    The record sizes and the file-name limits come from pantryfs_inode.h and
    pantryfs_file.h; they are parameters of the development. *)

Record layout := mkLayout {
  sizeof_pantryfs_inode : Z;           (* PFS_INODE_SIZE *)
  sizeof_pantryfs_dir_entry : Z;       (* PFS_DENTRY_SIZE *)
  PANTRYFS_FILENAME_BUF_SIZE : Z;
  PANTRYFS_MAX_FILENAME_LENGTH : Z
}.

(** ** The operations of mypantry.c *)

Section PantryFS.

Variable L : layout.

(** [alias_nlink_dec ino d] is the directory block [d] after the
    statement [p->nlink--] where [p] is a [struct pantryfs_inode *] laid
    over the directory block at byte offset [(ino - 1) * PFS_INODE_SIZE].
    Which directory-entry bytes this touches depends on the layout of
    both structs, so the effect is a parameter. *)
Variable alias_nlink_dec : Z -> list pantryfs_dir_entry -> list pantryfs_dir_entry.

(** [#define PFS_MAX_INODES (PFS_BLOCK_SIZE / sizeof(struct pantryfs_inode))] *)
Definition PFS_MAX_INODES : Z := PFS_BLOCK_SIZE / (sizeof_pantryfs_inode L).

(** [#define PFS_MAX_CHILDREN ((loff_t) (PFS_BLOCK_SIZE / sizeof(struct pantryfs_dir_entry)))] *)
Definition PFS_MAX_CHILDREN : Z := PFS_BLOCK_SIZE / (sizeof_pantryfs_dir_entry L).

(** What [memset(p, 0, PFS_DENTRY_SIZE)] leaves in a directory slot. *)
Definition zero_dentry : pantryfs_dir_entry :=
  mkDentry 0 0 (replicate (Z.to_nat (PANTRYFS_FILENAME_BUF_SIZE L)) 0).

(** A block read as directory entries; a block the map does not describe
    is a zero-filled block. *)
Definition dir_view (b : blocks) (n : Z) : list pantryfs_dir_entry :=
  default (replicate (Z.to_nat PFS_MAX_CHILDREN) zero_dentry) (b_dir b !! n).

(** A block read as bytes. *)
Definition data_view (b : blocks) (n : Z) : list Z :=
  default (replicate (Z.to_nat PFS_BLOCK_SIZE) 0) (b_data b !! n).

Definition dentry_at (d : list pantryfs_dir_entry) (i : Z) : pantryfs_dir_entry :=
  default zero_dentry (d !! PFS_dentry_from_dirblock i).

Definition sync_dir (st : pfs) (n : Z) : pfs :=
  with_dsk st (set_dir (dsk st) n (dir_view (buf st) n)).

(** First clear bit of a bitmap, [PFS_MAX_INODES] when every bit is set. *)
Definition first_clear (A : list Z) : Z :=
  scan_from (fun k => negb (truthy (IS_SET A k))) (Z.to_nat PFS_MAX_INODES) 0.

(** *** PFS_remove_inode (lines 84-107) *)
Definition PFS_remove_inode (st : pfs) (i : inode) : pfs :=
  let ino := i_ino i in
  let db_no := PFS_datablock_no_from_inode (b_istore (buf st)) i in
  let pantry_sb := b_sb (buf st) in
  let sb' := CLEARBIT_free_inodes (CLEARBIT_free_inodes pantry_sb ino) db_no in
  let st1 := sync_sb (with_buf st (set_sb (buf st) sb')) in
  let istore' := store_inode (b_istore (buf st1)) (PFS_inode_from_istore ino)
                   zero_inode in
  sync_istore (with_buf st1 (set_istore (buf st1) istore')).

(** *** pantryfs_create (lines 260-372)

    [now] is the value of [current_time(parent)].  The result is the
    return value and the state. *)
Definition pantryfs_create (st : pfs) (parent : inode) (name : list Z)
    (mode_arg : Z) (excl : bool) (now : timespec64) : Z * pfs :=
  if negb (sb_bread st PANTRYFS_SUPERBLOCK_DATABLOCK_NUMBER) then (- EIO, st) else
  let pantry_sb := b_sb (buf st) in
  let new_ino_no := first_clear (free_inodes pantry_sb) in
  let new_db_no := first_clear (free_data_blocks pantry_sb) in
  if (new_ino_no =? PFS_MAX_INODES) || (new_db_no =? PFS_MAX_INODES)
  then (0, st) else
  let sb' := mkSb (version pantry_sb) (magic pantry_sb)
               (SETBIT (free_inodes pantry_sb) new_ino_no)
               (SETBIT (free_data_blocks pantry_sb) new_db_no) in
  let st1 := sync_sb (with_buf st (set_sb (buf st) sb')) in
  if negb (sb_bread st1 PANTRYFS_INODE_STORE_DATABLOCK_NUMBER) then (- EIO, st1) else
  let pfs_new_inode :=
    mkPfsInode (Z.lor S_IFREG 438) (i_uid parent) (i_gid parent)
               now now now 1 new_db_no 0 in
  let istore' := store_inode (b_istore (buf st1))
                   (PFS_inode_from_istore new_ino_no) pfs_new_inode in
  let st2 := sync_istore (with_buf st1 (set_istore (buf st1) istore')) in
  let par_no := PFS_datablock_no_from_inode (b_istore (buf st2)) parent in
  if negb (sb_bread st2 par_no) then (- EIO, st2) else
  let d := dir_view (buf st2) par_no in
  let new_dentry_no :=
    scan_from (fun i => negb (truthy (active (dentry_at d i))))
              (Z.to_nat PFS_MAX_CHILDREN) 0 in
  if new_dentry_no =? PFS_MAX_CHILDREN then (0, st2) else
  let e := mkDentry new_ino_no 1
             (strncpy name (Z.to_nat (PANTRYFS_FILENAME_BUF_SIZE L))) in
  let d' := <[PFS_dentry_from_dirblock new_dentry_no := e]> d in
  (0, sync_dir (with_buf st2 (set_dir (buf st2) par_no d')) par_no).

(** *** pantryfs_unlink (lines 375-456)

    [dentry_inode] is [dentry->d_inode]; the result carries it back as the
    call leaves it. *)
Definition pantryfs_unlink (st : pfs) (dir : inode) (name : list Z)
    (dentry_inode : inode) : Z * pfs * inode :=
  if negb (sb_bread st PANTRYFS_INODE_STORE_DATABLOCK_NUMBER)
  then (- EIO, st, dentry_inode) else
  let dir_no := PFS_datablock_no_from_inode (b_istore (buf st)) dir in
  if negb (sb_bread st dir_no) then (- EIO, st, dentry_inode) else
  let d := dir_view (buf st) dir_no in
  let i := scan_from (fun i => strcmp_eq (filename (dentry_at d i)) name)
             (Z.to_nat PFS_MAX_CHILDREN) 0 in
  if i =? PFS_MAX_CHILDREN then (- EFAULT, st, dentry_inode) else
  let d1 := <[PFS_dentry_from_dirblock i := zero_dentry]> d in
  let st1 := sync_dir (with_buf st (set_dir (buf st) dir_no d1)) dir_no in
  (* first change the node itself *)
  let dentry_inode' := mark_inode_dirty (drop_nlink dentry_inode) in
  (* "now write to the inode store": the pointer is taken in dir_bh *)
  let d2 := alias_nlink_dec (i_ino dentry_inode') d1 in
  let st2 := with_buf st1 (set_dir (buf st1) dir_no d2) in
  let st3 := sync_istore st2 in
  if negb (i_nlink dentry_inode' =? 0) then (0, st3, dentry_inode') else
  if negb (sb_bread st3 PANTRYFS_SUPERBLOCK_DATABLOCK_NUMBER)
  then (- EIO, st3, dentry_inode') else
  (0, PFS_remove_inode st3 dentry_inode', dentry_inode').

(** *** pantryfs_write_inode (lines 459-496) *)
Definition pantryfs_write_inode (st : pfs) (i : inode) : Z * pfs :=
  if negb (sb_bread st PANTRYFS_INODE_STORE_DATABLOCK_NUMBER) then (- EIO, st) else
  let p := PFS_inode_from_istore (i_ino i) in
  let disk_inode := load_inode (b_istore (buf st)) p in
  let disk_inode' :=
    mkPfsInode (i_mode i) (i_uid i) (i_gid i) (vi_atime i) (vi_mtime i)
               (vi_ctime i) (i_nlink i) (data_block_number disk_inode)
               (i_size i) in
  let istore' := store_inode (b_istore (buf st)) p disk_inode' in
  (0, sync_istore (with_buf st (set_istore (buf st) istore'))).

(** *** pantryfs_evict_inode (lines 499-525)

    [truncate_inode_pages_final] and [clear_inode] act on the host's
    object only. *)
Definition pantryfs_evict_inode (st : pfs) (i : inode) : pfs :=
  if negb (sb_bread st PANTRYFS_INODE_STORE_DATABLOCK_NUMBER) then st else
  if negb (sb_bread st PANTRYFS_SUPERBLOCK_DATABLOCK_NUMBER) then st else
  PFS_remove_inode st i.

(** *** pantryfs_read (lines 186-249)

    [user_ok] tells whether [copy_to_user] succeeds.  The result is the
    return value, the new [*ppos] and the bytes handed to the user. *)
Definition read_amt (len ppos : Z) : Z :=
  if u64 (len + ppos) >? PFS_BLOCK_SIZE then u64 (PFS_BLOCK_SIZE - ppos) else len.

Definition pantryfs_read (st : pfs) (i : inode) (len ppos : Z) (user_ok : bool)
    : Z * Z * list Z :=
  if ppos =? PFS_BLOCK_SIZE then (0, ppos, [])
  else if ppos >? PFS_BLOCK_SIZE then (- EINVAL, ppos, [])
  else
  if negb (sb_bread st PANTRYFS_INODE_STORE_DATABLOCK_NUMBER) then (- EIO, ppos, []) else
  let db_no := PFS_datablock_no_from_inode (b_istore (buf st)) i in
  if negb (sb_bread st db_no) then (- EIO, ppos, []) else
  let amt_to_read := read_amt len ppos in
  if negb user_ok then (- EFAULT, ppos, []) else
  (s64 amt_to_read, s64 (ppos + amt_to_read),
   take (Z.to_nat amt_to_read) (drop (Z.to_nat ppos) (data_view (buf st) db_no))).

(** *** pantryfs_write (lines 534-609)

    [ubuf] is the user buffer and [uncopied] the count [copy_from_user]
    hands back: the number of bytes it could not copy, between 0 and the
    count it was asked for.  The host copies the bytes before the fault and
    zero-fills the rest of the destination, so a copy that fails has
    written the block all the same.  The result is the return value, the
    state, the inode and the new [*ppos]. *)
Definition write_amt (len ppos : Z) : Z :=
  if u64 (len + ppos) >? PFS_BLOCK_SIZE then u64 (PFS_BLOCK_SIZE - ppos) else len.

(** The block after [amt] bytes of [src] are copied to offset [off]. *)
Definition copy_into (blk : list Z) (off amt : Z) (src : list Z) : list Z :=
  let bytes := take (Z.to_nat amt) src in
  take (Z.to_nat off) blk ++ bytes ++ drop (Z.to_nat off + length bytes) blk.

(** [copy_from_user(to, from, n)] of the host, seen from the block: [left]
    bytes could not be read, the first [n - left] bytes of the destination
    come from the user and the last [left] are zero-filled. *)
Definition copy_from_user (blk : list Z) (off n : Z) (src : list Z) (left : Z)
    : list Z :=
  copy_into blk off n
    (take (Z.to_nat (n - left)) src ++ replicate (Z.to_nat left) 0).

Definition pantryfs_write (st : pfs) (i : inode) (f_flags : Z) (ubuf : list Z)
    (len ppos : Z) (uncopied : Z) : Z * pfs * inode * Z :=
  if ppos >? i_size i then (- EINVAL, st, i, ppos) else
  let isappend := Z.land f_flags O_APPEND in
  let ppos1 := if truthy isappend then i_size i else ppos in
  if negb (sb_bread st PANTRYFS_INODE_STORE_DATABLOCK_NUMBER)
  then (- EIO, st, i, ppos1) else
  let db_no := PFS_datablock_no_from_inode (b_istore (buf st)) i in
  if negb (sb_bread st db_no) then (- EIO, st, i, ppos1) else
  let amt_to_write := write_amt len ppos1 in
  (* what copy_from_user returns: at most the count asked for *)
  let left := Z.max 0 (Z.min uncopied amt_to_write) in
  let blk := copy_from_user (data_view (buf st) db_no) ppos1 amt_to_write
               ubuf left in
  let st1 := with_buf st (set_data (buf st) db_no blk) in
  (* the failure exit skips mark_buffer_dirty and leaves *ppos, but the
     buffer has been written *)
  if negb (left =? 0) then (- EFAULT, st1, i, ppos1) else
  (* mark_buffer_dirty(bh): no sync *)
  let ppos2 := s64 (ppos1 + amt_to_write) in
  let i' := if ppos2 >? i_size i then mark_inode_dirty (set_i_size i ppos2) else i in
  (s64 amt_to_write, st1, i', ppos2).

(** *** The host inode cache and pfs_inode (lines 37-82)

    The host keeps the in-memory inodes on hash chains.
    [iget_locked(sb, ino)] walks the chain of [ino] for an inode whose
    [i_ino] equals [ino] ([find_inode_fast]) and returns it; when there is
    none it returns a new inode with [i_ino = ino] and [I_NEW] set, which it
    has put at the head of that chain, or NULL when the allocation fails.
    [cache] maps a key to its chain.  An in-memory inode is an object: it
    is named by its chain and its position there, and a change to the
    object is a change of the chain at that position.  (The host makes a
    caller that finds an inode still carrying [I_NEW] wait until it is
    unlocked; no call below leaves such an inode on a chain, see
    [pfs_inode_unlocked].) *)
Definition fresh_inode (key : Z) : inode :=
  mkInode key 0 1 0 0 zero_time zero_time zero_time 0 0 I_NEW no_fops false.

Definition hash_chain (cache : gmap Z (list inode)) (key : Z) : list inode :=
  default [] (cache !! key).

(** [find_inode_fast]: the first inode on the chain whose number is [ino],
    with its position. *)
Definition find_inode_fast (c : list inode) (ino : Z) : option (nat * inode) :=
  list_find (fun i => i_ino i = ino) c.

Definition iget_locked (cache : gmap Z (list inode)) (alloc_ok : bool) (ino : Z)
    : option (nat * inode * gmap Z (list inode)) :=
  match find_inode_fast (hash_chain cache ino) ino with
  | Some (k, i) => Some (k, i, cache)
  | None =>
      if alloc_ok
      then Some (O, fresh_inode ino,
                 <[ino := fresh_inode ino :: hash_chain cache ino]> cache)
      else None
  end.

(** The fields [pfs_inode] sets on a new inode, [unlock_new_inode]
    included.  [i_mode] is an [umode_t] and [i_size] a [loff_t]: the
    record's [mode] and [file_size] are narrowed to them. *)
Definition fill_inode (i : inode) (ino : Z) (r : pantryfs_inode) : inode :=
  let isroot := ino =? PANTRYFS_ROOT_INODE_NUMBER in
  let isdir := truthy (Z.land (mode r) S_IFDIR) || isroot in
  mkInode ino
    (if isroot then Z.lor 511 S_IFDIR else u16 (mode r))
    (nlink r) (uid r) (gid r) (i_atime r) (i_mtime r) (i_ctime r)
    (if isdir then PFS_BLOCK_SIZE else s64 (file_size r))
    1
    (Z.land (i_state i) (Z.lnot I_NEW))
    (if isdir then pantryfs_dir_ops else pantryfs_file_ops)
    (i_dirty i).

(** The request to the host is for key 0, whatever [ino] is. *)
Definition pfs_inode (cache : gmap Z (list inode)) (alloc_ok : bool) (ino : Z)
    (r : pantryfs_inode) : option (inode * gmap Z (list inode)) :=
  match iget_locked cache alloc_ok 0 with
  | None => None
  | Some (k, i, cache1) =>
      if negb (truthy (Z.land (i_state i) I_NEW)) then Some (i, cache1)
      else let i' := fill_inode i ino r in
           Some (i', <[0 := <[k := i']> (hash_chain cache1 0)]> cache1)
  end.

(** *** pantryfs_lookup (lines 613-722)

    The result is the return value (0 for NULL, a negative errno for an
    error pointer), the inode given to [d_add] if any, and the cache. *)
Fixpoint lookup_loop (d : list pantryfs_dir_entry) (name : list Z) (n : nat) (i : Z)
    : option pantryfs_dir_entry :=
  match n with
  | O => None
  | S n' =>
      let pfs_dentry := dentry_at d i in
      if negb (truthy (active pfs_dentry)) then lookup_loop d name n' (i + 1)
      else if strncmp_eq (filename pfs_dentry) name (Z.to_nat (PANTRYFS_FILENAME_BUF_SIZE L))
      then Some pfs_dentry
      else lookup_loop d name n' (i + 1)
  end.

Definition pantryfs_lookup (st : pfs) (cache : gmap Z (list inode))
    (alloc_ok : bool) (parent : inode) (name : list Z)
    : Z * option inode * gmap Z (list inode) :=
  if Z.of_nat (length name) >? (PANTRYFS_MAX_FILENAME_LENGTH L)
  then (- ENAMETOOLONG, None, cache) else
  if negb (sb_bread st PANTRYFS_INODE_STORE_DATABLOCK_NUMBER) then (- EIO, None, cache) else
  let par_no := PFS_datablock_no_from_inode (b_istore (buf st)) parent in
  if negb (sb_bread st par_no) then (- EIO, None, cache) else
  match lookup_loop (dir_view (buf st) par_no) name (Z.to_nat PFS_MAX_CHILDREN) 0 with
  | None => (0, None, cache)
  | Some dir_dentry =>
      let dd_pfs_inode :=
        load_inode (b_istore (buf st)) (PFS_inode_from_istore (inode_no dir_dentry)) in
      match pfs_inode cache alloc_ok (inode_no dir_dentry) dd_pfs_inode with
      | None => (- ENOMEM, None, cache)
      | Some (dd_inode, cache') => (0, Some dd_inode, cache')
      end
  end.

(** *** pantryfs_fill_super (lines 761-839)

    [kmalloc_ok] tells whether [kmalloc] returns a buffer and [dentry_ok]
    whether [d_make_root] succeeds.  A result [Returns] carries the return
    value, the inode of [sb->s_root] if any, and the cache.  Three paths
    of the source have no result:
    - [inode_buf] is handed to [memcpy] unchecked, so a failed [kmalloc] is
      a copy to NULL;
    - when [pfs_inode] returns NULL the code sets [ret = -ENOMEM] and jumps
      to [fill_super_release_both], where it calls
      [unlock_new_inode(root_inode)] on that NULL pointer;
    - when [d_make_root] fails it has dropped the reference to the inode
      ([iput]), the only one, and the code jumps to the same label and
      unlocks the inode it no longer holds.
    On the way out of a successful call the same [unlock_new_inode] runs a
    second time on the root inode; [pfs_inode] has cleared [I_NEW] already
    (lemma [pfs_inode_unlocked]), so it changes nothing. *)
Definition pantryfs_fill_super (st : pfs) (cache : gmap Z (list inode))
    (kmalloc_ok alloc_ok dentry_ok : bool)
    : outcome (Z * option inode * gmap Z (list inode)) :=
  if negb (sb_bread st PANTRYFS_SUPERBLOCK_DATABLOCK_NUMBER)
  then Returns (- EIO, None, cache) else
  if negb (PANTRYFS_MAGIC_NUMBER =? magic (b_sb (buf st)))
  then Returns (- EINVAL, None, cache) else
  if negb (sb_bread st PANTRYFS_INODE_STORE_DATABLOCK_NUMBER)
  then Returns (- EIO, None, cache) else
  (* inode_buf = kmalloc(...); memcpy(inode_buf, i_store_bh->b_data, ...) *)
  if negb kmalloc_ok then Faults else
  let pfs_root_inode := load_inode (b_istore (buf st)) (Some O) in
  match pfs_inode cache alloc_ok PANTRYFS_ROOT_INODE_NUMBER pfs_root_inode with
  | None => Faults
  | Some (root_inode, cache') =>
      if negb dentry_ok then Faults
      else Returns (0, Some root_inode, cache')
  end.

(** *** pantryfs_iterate (lines 110-183)

    The host's [dir_context]: the cursor [pos] and the state of the
    callback.  [actor a e] is [true] when the callback takes the entry
    [e], which is the value of [dir_emit]. *)
Section Iterate.

Context {A : Type}.
Variable actor : A -> dirent -> bool * A.

Definition dir_emit (ctx : dir_context A) (name : list Z) (namelen ino type : Z)
    : bool * dir_context A :=
  let '(ok, a) := actor (actor_data ctx) (mkDirent name namelen (pos ctx) ino type) in
  (ok, mkCtx (pos ctx) a).

(** [dir_emit_dots] of the host: "." at position 0, ".." at position 1. *)
Definition dir_emit_dots (ino parent_ino : Z) (ctx : dir_context A)
    : bool * dir_context A :=
  let '(ok0, ctx0) :=
    if pos ctx =? 0 then
      let '(ok, c) := dir_emit ctx [46] 1 ino DT_DIR in
      if ok then (true, mkCtx 1 (actor_data c)) else (false, c)
    else (true, ctx) in
  if negb ok0 then (false, ctx0) else
  if pos ctx0 =? 1 then
    let '(ok, c) := dir_emit ctx0 [46; 46] 2 parent_ino DT_DIR in
    if ok then (true, mkCtx 2 (actor_data c)) else (false, c)
  else (true, ctx0).

(** [#define S_DT(mode) (((mode) & S_IFMT) >> 12)] *)
Definition S_DT (m : Z) : Z := Z.shiftr (Z.land m S_IFMT) 12.

(** The [for] loop over the slots, from slot [i], [n] slots left. *)
Fixpoint iterate_loop (d : list pantryfs_dir_entry) (dir_mode : Z) (n : nat) (i : Z)
    (ctx : dir_context A) : dir_context A :=
  match n with
  | O => ctx
  | S n' =>
      let pfs_dentry := dentry_at d i in
      if negb (truthy (active pfs_dentry)) then iterate_loop d dir_mode n' (i + 1) ctx
      else
        let '(res, ctx1) :=
          dir_emit ctx (filename pfs_dentry) (2 * (PANTRYFS_FILENAME_BUF_SIZE L))
                   (inode_no pfs_dentry) (S_DT dir_mode) in
        if negb res then ctx1
        else iterate_loop d dir_mode n' (i + 1) (mkCtx (pos ctx1 + 1) (actor_data ctx1))
  end.

Definition pantryfs_iterate (st : pfs) (dir_inode : inode) (parent_ino : Z)
    (ctx : dir_context A) : Z * dir_context A :=
  if pos ctx >? PFS_MAX_CHILDREN + 2 then (0, ctx) else
  let '(res, ctx1) := dir_emit_dots (i_ino dir_inode) parent_ino ctx in
  if negb res then (0, ctx1) else
  if negb (sb_bread st PANTRYFS_INODE_STORE_DATABLOCK_NUMBER) then (- EIO, ctx1) else
  let db_no := PFS_datablock_no_from_inode (b_istore (buf st)) dir_inode in
  if negb (sb_bread st db_no) then (- EIO, ctx1) else
  let ctx2 := iterate_loop (dir_view (buf st) db_no) (i_mode dir_inode)
                (Z.to_nat PFS_MAX_CHILDREN) 0 ctx1 in
  (0, mkCtx (PFS_MAX_CHILDREN + 3) (actor_data ctx2)).

End Iterate.

End PantryFS.

(** ** The invariant of the data model

    Bit [i] of [free_inodes] is set exactly when the inode-table slot of
    inode number [i + 1], that is slot [i], holds a live record, and a slot
    that is not live is zero-filled: a slot is live exactly when it is not
    the zero record. *)

Definition live (r : pantryfs_inode) : bool := bool_decide (r ≠ zero_inode).

Definition bitmap_inv_at (b : blocks) (i : nat) : bool :=
  bool_decide (truthy (IS_SET (free_inodes (b_sb b)) (Z.of_nat i))
               = live (load_inode (b_istore b) (Some i))).

Definition bitmap_inv (L : layout) (b : blocks) : bool :=
  forallb (bitmap_inv_at b) (seq 0 (Z.to_nat (PFS_MAX_INODES L))).

(** ** A formatted image and the objects used in the examples

    An instance of the layout parameters: 88-byte inode records (46
    slots), 256-byte directory entries (16 slots) with a 247-byte name
    buffer that holds names of up to 246 bytes.  The image
    holds the root directory (inode 1, block 2) and one file "hello.txt"
    (inode 2, block 3), with bits 0 and 1 set in both bitmaps. *)

Definition layout64 : layout := mkLayout 88 256 247 246.

Definition name_hello : list Z := [104; 101; 108; 108; 111; 46; 116; 120; 116].
Definition name_a : list Z := [97].
Definition name_b : list Z := [98].

Definition root_rec : pantryfs_inode :=
  mkPfsInode (Z.lor S_IFDIR 511) 0 0 zero_time zero_time zero_time 2 2 0.

Definition hello_rec (links : Z) : pantryfs_inode :=
  mkPfsInode (Z.lor S_IFREG 438) 0 0 zero_time zero_time zero_time links 3 12.

Definition root_dir : list pantryfs_dir_entry :=
  mkDentry 2 1 (strncpy name_hello 247) :: replicate 15 (zero_dentry layout64).

Definition hello_data : list Z :=
  [72; 101; 108; 108; 111; 32; 119; 111; 114; 108; 100; 10] ++ replicate 4084 0.

(** The image, with the link count of "hello.txt" left open. *)
Definition img_blocks (links : Z) : blocks :=
  mkBlocks (mkSb 1 PANTRYFS_MAGIC_NUMBER [3; 0] [3; 0])
           (root_rec :: hello_rec links :: replicate 44 zero_inode)
           {[ 2 := root_dir ]}
           {[ 3 := hello_data ]}.

Definition img (links : Z) : pfs := mkPfs (img_blocks links) (img_blocks links) ∅.

(** The in-memory inodes as [fill_inode] fills them from the records of
    the image. *)
Definition root_inode : inode :=
  fill_inode (fresh_inode 0) 1 root_rec.

Definition hello_inode (links : Z) : inode :=
  fill_inode (fresh_inode 2) 2 (hello_rec links).

(** A callback that takes entries while it has room: its state is the room
    left and the entries taken so far, oldest first. *)
Definition room_actor (a : nat * list dirent) (e : dirent) : bool * (nat * list dirent) :=
  match a with
  | (O, got) => (false, (O, got))
  | (S n, got) => (true, (n, got ++ [e]))
  end.

(** The names a callback state has received. *)
Definition names_of (a : nat * list dirent) : list (list Z) :=
  map (fun e => cstr (d_name e)) (snd a).

(** The image with every bit of [free_inodes] set (46 slots). *)
Definition img_no_inode : pfs :=
  let b := set_sb (img_blocks 1)
             (mkSb 1 PANTRYFS_MAGIC_NUMBER [4294967295; 16383] [3; 0]) in
  mkPfs b b ∅.

(** The image with all 16 slots of the root directory active. *)
Definition full_dir : list pantryfs_dir_entry :=
  map (fun k => mkDentry 2 1 (strncpy [65 + Z.of_nat k] 247)) (seq 0 16).

Definition img_dir_full : pfs :=
  let b := set_dir (img_blocks 1) 2 full_dir in
  mkPfs b b ∅.

(** The image with two active entries, "a" (inode 2) and "b" (inode 3). *)
Definition two_dir : list pantryfs_dir_entry :=
  mkDentry 2 1 (strncpy name_a 247) :: mkDentry 3 1 (strncpy name_b 247)
  :: replicate 14 (zero_dentry layout64).

Definition img_two : pfs :=
  let b := set_dir (img_blocks 1) 2 two_dir in
  mkPfs b b ∅.

(** The record [pantryfs_create] writes: the mode is a constant of the
    source, not the [mode] argument. *)
Definition created_record (parent : inode) (now : timespec64) (db_no : Z)
    : pantryfs_inode :=
  mkPfsInode (Z.lor S_IFREG 438) (i_uid parent) (i_gid parent) now now now 1 db_no 0.

(** The state after [create] of "a" on the formatted image, and the
    in-memory inode filled from the record that [create] wrote. *)
Definition img_created : pfs :=
  snd (pantryfs_create layout64 (img 1) root_inode name_a 33188 false (mkTime 5 0)).

Definition a_inode : inode :=
  fill_inode (fresh_inode 2) 2
    (load_inode (b_istore (buf img_created)) (PFS_inode_from_istore 2)).

(** ** Further objects used in the statements below *)

(** The test [pantryfs_lookup] applies to one slot: the slot is active and
    its name equals the given one over the size of the name buffer. *)
Definition matches (L : layout) (name : list Z) (e : pantryfs_dir_entry) : bool :=
  truthy (active e)
  && strncmp_eq (filename e) name (Z.to_nat (PANTRYFS_FILENAME_BUF_SIZE L)).

(** Block [m] reads the same in [b'] as in [b], through each of the types
    a block is read through: the superblock is block 0 and the inode store
    block 1, a directory or a data block is found under its number. *)
Definition same_block (b b' : blocks) (m : Z) : Prop :=
  (m = PANTRYFS_SUPERBLOCK_DATABLOCK_NUMBER -> b_sb b' = b_sb b)
  /\ (m = PANTRYFS_INODE_STORE_DATABLOCK_NUMBER -> b_istore b' = b_istore b)
  /\ b_dir b' !! m = b_dir b !! m
  /\ b_data b' !! m = b_data b !! m.

(** The image with "hello.txt" owning block 67 in its record, and the
    in-memory inode of that file: 67 / 32 is the length of [free_inodes],
    so bit 67 counted from [free_inodes] is bit 3 of [free_data_blocks]. *)
Definition img_far : pfs :=
  let b := mkBlocks (mkSb 1 PANTRYFS_MAGIC_NUMBER [3; 0] [11; 0])
             (root_rec
              :: mkPfsInode (Z.lor S_IFREG 438) 0 0 zero_time zero_time zero_time
                   1 67 12
              :: replicate 44 zero_inode)
             {[ 2 := root_dir ]} ∅ in
  mkPfs b b ∅.


(** An instance of the parameter [alias_nlink_dec] for the examples: a
    layout in which the aliased field shows in no field of the entries. *)
Definition alias_unseen (ino : Z) (d : list pantryfs_dir_entry)
    : list pantryfs_dir_entry := d.

(** The record that [pantryfs_write_inode] leaves: every field from the
    inode except the data block number, which it does not assign. *)
Definition record_of_inode (i : inode) (db_no : Z) : pantryfs_inode :=
  mkPfsInode (i_mode i) (i_uid i) (i_gid i) (vi_atime i) (vi_mtime i)
             (vi_ctime i) (i_nlink i) db_no (i_size i).

(** An image whose superblock carries another magic number. *)
Definition img_bad_magic : pfs :=
  let b := set_sb (img_blocks 1) (mkSb 1 4660 [3; 0] [3; 0]) in
  mkPfs b b ∅.

(** An image in which no block can be read. *)
Definition img_unreadable : pfs := mkPfs (img_blocks 1) (img_blocks 1) {[ 0; 1; 2 ]}.

(** A callback that takes every entry: its state is the list of the entries
    taken so far, oldest first. *)
Definition collect (a : list dirent) (e : dirent) : bool * list dirent :=
  (true, a ++ [e]).

(** The slots [s], [s + 1], ... ([n] of them) of a directory block. *)
Definition slots_from (L : layout) (d : list pantryfs_dir_entry) (s n : nat)
    : list pantryfs_dir_entry :=
  map (fun k => dentry_at L d (Z.of_nat k)) (seq s n).

(** The active ones among them. *)
Definition active_slots (L : layout) (d : list pantryfs_dir_entry) (s n : nat)
    : list pantryfs_dir_entry :=
  List.filter (fun e => truthy (active e)) (slots_from L d s n).

(** What [pantryfs_iterate] hands to the callback for the [k]-th active
    entry when the cursor stood at [p] before the first. *)
Definition emitted (L : layout) (dir_mode p : Z) (k : nat) (e : pantryfs_dir_entry)
    : dirent :=
  mkDirent (filename e) (2 * PANTRYFS_FILENAME_BUF_SIZE L) (p + Z.of_nat k)
           (inode_no e) (S_DT dir_mode).

(** * Properties *)

(** ** Fixed-width arithmetic *)

Lemma u64_small (x : Z) : 0 <= x < 2 ^ 64 -> u64 x = x.
Proof. intros H. unfold u64. apply Z.mod_small. exact H. Qed.

Lemma s64_small (x : Z) : - 2 ^ 63 <= x < 2 ^ 63 -> s64 x = x.
Proof. intros H. unfold s64. rewrite Z.mod_small; lia. Qed.

Lemma s64_u64 (x : Z) : s64 (u64 x) = s64 x.
Proof. unfold s64, u64. rewrite Z.add_mod_idemp_l by lia. reflexivity. Qed.

Lemma s64_add_u64 (a b : Z) : s64 (a + u64 b) = s64 (a + b).
Proof.
  unfold s64, u64.
  replace (a + b mod 2 ^ 64 + 2 ^ 63) with (b mod 2 ^ 64 + (a + 2 ^ 63)) by lia.
  rewrite Z.add_mod_idemp_l by lia.
  do 2 f_equal. lia.
Qed.

(** The clipped count of [pantryfs_read] and [pantryfs_write], read as a
    signed count, and the offset after it. *)
Lemma clip_count (len ppos : Z) :
  0 <= ppos < 2 ^ 63 -> 0 <= len -> len + ppos < 2 ^ 64 ->
  s64 (read_amt len ppos) = Z.min len (PFS_BLOCK_SIZE - ppos)
  /\ s64 (ppos + read_amt len ppos) = ppos + Z.min len (PFS_BLOCK_SIZE - ppos).
Proof.
  intros Hp Hl Hs. unfold read_amt, PFS_BLOCK_SIZE.
  rewrite (u64_small (len + ppos)) by lia.
  destruct (Z.gtb_spec (len + ppos) 4096) as [Hgt | Hle].
  - rewrite s64_u64, s64_add_u64.
    rewrite !s64_small by lia. lia.
  - rewrite !s64_small by lia. lia.
Qed.

Lemma write_amt_read_amt (len ppos : Z) : write_amt len ppos = read_amt len ppos.
Proof. reflexivity. Qed.

(** ** Bit vectors *)

Lemma bit_mask_pos (k : Z) : 0 < Z.shiftl 1 (k mod 32).
Proof.
  rewrite Z.shiftl_1_l. apply Z.pow_pos_nonneg; [lia |].
  apply Z.mod_pos_bound. lia.
Qed.

Lemma word_at_alter (f : Z -> Z) (A : list Z) (k : Z) :
  0 <= k -> (Z.to_nat (k / 32) < length A)%nat ->
  word_at (word_upd f A k) k = f (word_at A k).
Proof.
  intros Hk Hlen. unfold word_at, word_upd.
  destruct (Z.ltb_spec k 0); [lia |].
  rewrite list_lookup_alter_eq.
  destruct (lookup_lt_is_Some_2 A _ Hlen) as [w Hw].
  rewrite Hw. reflexivity.
Qed.

(** A bit that [SETBIT] has set tests as set. *)
Lemma IS_SET_SETBIT (A : list Z) (k : Z) :
  0 <= k -> (Z.to_nat (k / 32) < length A)%nat ->
  truthy (IS_SET (SETBIT A k) k) = true.
Proof.
  intros Hk Hlen. unfold IS_SET, SETBIT.
  rewrite word_at_alter by assumption.
  rewrite Z.land_lor_distr_l, Z.land_diag.
  pose proof (bit_mask_pos k) as Hm.
  unfold truthy.
  destruct (Z.eqb_spec (Z.lor (Z.land (word_at A k) (Z.shiftl 1 (k mod 32)))
                              (Z.shiftl 1 (k mod 32))) 0) as [H0 | _];
    [| reflexivity].
  apply Z.lor_eq_0_iff in H0. lia.
Qed.

(** A bit that [CLEARBIT] has cleared tests as clear. *)
Lemma IS_SET_CLEARBIT (A : list Z) (k : Z) :
  0 <= k -> (Z.to_nat (k / 32) < length A)%nat ->
  IS_SET (CLEARBIT A k) k = 0.
Proof.
  intros Hk Hlen. unfold IS_SET, CLEARBIT.
  rewrite word_at_alter by assumption.
  unfold u32. rewrite <- Z.land_ones by lia.
  apply Z.bits_inj'. intros n Hn.
  rewrite !Z.land_spec, Z.lnot_spec, Z.bits_0 by lia.
  destruct (Z.testbit (word_at A k) n), (Z.testbit (Z.shiftl 1 (k mod 32)) n),
    (Z.testbit (Z.ones 32) n); reflexivity.
Qed.

(** [CLEARBIT] sets no bit: a clear bit stays clear whatever bit is
    cleared. *)
Lemma IS_SET_CLEARBIT_clear (A : list Z) (j k : Z) :
  0 <= k -> IS_SET A k = 0 -> IS_SET (CLEARBIT A j) k = 0.
Proof.
  intros Hk Hclear. unfold IS_SET, CLEARBIT, word_upd, word_at in *.
  destruct (Z.ltb_spec j 0); [exact Hclear |].
  destruct (Z.ltb_spec k 0); [lia |].
  destruct (decide (Z.to_nat (j / 32) = Z.to_nat (k / 32))) as [Heq | Hne].
  - rewrite Heq, list_lookup_alter_eq.
    destruct (A !! Z.to_nat (k / 32)) as [w |]; [| reflexivity].
    cbn [fmap option_fmap option_map default from_option] in *.
    unfold id in *. unfold u32. rewrite <- Z.land_ones by lia.
    apply Z.bits_inj'. intros n Hn.
    apply (f_equal (fun x => Z.testbit x n)) in Hclear.
    rewrite Z.land_spec, Z.bits_0 in Hclear.
    rewrite !Z.land_spec, Z.bits_0.
    destruct (Z.testbit w n), (Z.testbit (Z.shiftl 1 (k mod 32)) n);
      cbn in *; try discriminate; rewrite ?andb_false_r; reflexivity.
  - rewrite list_lookup_alter_ne by exact Hne. exact Hclear.
Qed.

(** ** Scanning loops *)

Lemma scan_from_bounds (p : Z -> bool) (n : nat) (k : Z) :
  k <= scan_from p n k <= k + Z.of_nat n.
Proof.
  revert k. induction n as [| n IH]; intros k; simpl scan_from.
  - lia.
  - destruct (p k); [lia |]. specialize (IH (k + 1)). lia.
Qed.

Lemma scan_from_hit (p : Z -> bool) (n : nat) (k : Z) :
  scan_from p n k < k + Z.of_nat n -> p (scan_from p n k) = true.
Proof.
  revert k. induction n as [| n IH]; intros k; simpl scan_from.
  - lia.
  - destruct (p k) eqn:Hk; [intros _; exact Hk |].
    intros H. apply IH. lia.
Qed.

Lemma scan_from_before (p : Z -> bool) (n : nat) (k j : Z) :
  k <= j < scan_from p n k -> p j = false.
Proof.
  revert k. induction n as [| n IH]; intros k; simpl scan_from.
  - lia.
  - destruct (p k) eqn:Hk; [lia |].
    intros H. destruct (Z.eq_dec j k) as [-> | Hne]; [exact Hk |].
    apply (IH (k + 1)). lia.
Qed.

Lemma scan_from_none (p : Z -> bool) (n : nat) (k : Z) :
  (forall j, k <= j < k + Z.of_nat n -> p j = false) ->
  scan_from p n k = k + Z.of_nat n.
Proof.
  revert k. induction n as [| n IH]; intros k H; simpl scan_from.
  - lia.
  - rewrite (H k) by lia. rewrite IH; [lia |].
    intros j Hj. apply H. lia.
Qed.

(** ** The bitmap scan of pantryfs_create *)

(** [first_clear] is the linear scan from bit 0: every bit below the
    result is set, the result is a clear bit unless it is
    [PFS_MAX_INODES]. *)
Lemma first_clear_spec (L : layout) (A : list Z) :
  0 <= PFS_MAX_INODES L ->
  0 <= first_clear L A <= PFS_MAX_INODES L
  /\ (forall k, 0 <= k < first_clear L A -> truthy (IS_SET A k) = true)
  /\ (first_clear L A < PFS_MAX_INODES L ->
      truthy (IS_SET A (first_clear L A)) = false).
Proof.
  intros Hmax. unfold first_clear.
  set (p := fun k => negb (truthy (IS_SET A k))).
  pose proof (scan_from_bounds p (Z.to_nat (PFS_MAX_INODES L)) 0) as Hb.
  split; [lia |]. split.
  - intros k Hk. apply negb_false_iff.
    apply (scan_from_before p (Z.to_nat (PFS_MAX_INODES L)) 0 k). exact Hk.
  - intros Hlt. apply negb_true_iff.
    apply (scan_from_hit p (Z.to_nat (PFS_MAX_INODES L)) 0). lia.
Qed.

(** With every bit below [PFS_MAX_INODES] set the scan ends at
    [PFS_MAX_INODES]. *)
Lemma first_clear_exhausted (L : layout) (A : list Z) :
  0 <= PFS_MAX_INODES L ->
  (forall k, 0 <= k < PFS_MAX_INODES L -> truthy (IS_SET A k) = true) ->
  first_clear L A = PFS_MAX_INODES L.
Proof.
  intros Hmax Hall. unfold first_clear.
  rewrite scan_from_none; [lia |].
  intros j Hj. rewrite Hall by lia. reflexivity.
Qed.

Lemma read_amt_in_block (len ppos : Z) :
  0 <= ppos <= PFS_BLOCK_SIZE -> 0 <= len -> len + ppos < 2 ^ 64 ->
  read_amt len ppos = Z.min len (PFS_BLOCK_SIZE - ppos).
Proof.
  unfold read_amt, PFS_BLOCK_SIZE. intros Hp Hl Hs.
  rewrite (u64_small (len + ppos)) by lia.
  destruct (Z.gtb_spec (len + ppos) 4096).
  - rewrite u64_small by lia. lia.
  - lia.
Qed.

(** ** File I/O: pantryfs_read *)

(** C8.  [read] at an offset equal to the 4096-byte block size returns 0
    and delivers nothing; at an offset beyond the block size it fails with
    [-EINVAL]; at an offset inside the block (the host passes a
    non-negative offset and a length whose sum with it fits the 64-bit
    type), when the blocks can be read and the copy to the user succeeds,
    it returns [min len (4096 - offset)], advances the offset by that
    count, never past the block size, and delivers that many bytes of the
    block starting at the offset. *)
Theorem C8_read_clips_to_block (st : pfs) (i : inode) (len ppos : Z) (user_ok : bool) :
  (ppos = PFS_BLOCK_SIZE ->
   pantryfs_read st i len ppos user_ok = (0, ppos, []))
  /\ (ppos > PFS_BLOCK_SIZE ->
      pantryfs_read st i len ppos user_ok = (- EINVAL, ppos, []))
  /\ (0 <= ppos < PFS_BLOCK_SIZE -> 0 <= len -> len + ppos < 2 ^ 64 ->
      sb_bread st PANTRYFS_INODE_STORE_DATABLOCK_NUMBER = true ->
      sb_bread st (PFS_datablock_no_from_inode (b_istore (buf st)) i) = true ->
      user_ok = true ->
      let n := Z.min len (PFS_BLOCK_SIZE - ppos) in
      pantryfs_read st i len ppos user_ok
      = (n, ppos + n,
         take (Z.to_nat n)
              (drop (Z.to_nat ppos)
                    (data_view (buf st)
                       (PFS_datablock_no_from_inode (b_istore (buf st)) i))))
      /\ 0 <= n <= len /\ ppos + n <= PFS_BLOCK_SIZE).
Proof.
  split; [| split].
  - intros ->. unfold pantryfs_read. rewrite Z.eqb_refl. reflexivity.
  - intros Hgt. unfold pantryfs_read.
    destruct (Z.eqb_spec ppos PFS_BLOCK_SIZE) as [Heq | _]; [lia |].
    destruct (Z.gtb_spec ppos PFS_BLOCK_SIZE) as [_ | Hle]; [reflexivity | lia].
  - intros Hp Hl Hs Hi Hd -> n. unfold pantryfs_read.
    destruct (Z.eqb_spec ppos PFS_BLOCK_SIZE) as [Heq | _]; [lia |].
    destruct (Z.gtb_spec ppos PFS_BLOCK_SIZE) as [Hgt | _]; [lia |].
    rewrite Hi, Hd. cbn [negb].
    assert (Hb : PFS_BLOCK_SIZE = 4096) by reflexivity.
    destruct (clip_count len ppos) as [Hc1 Hc2]; [lia | lia | lia |].
    rewrite Hc1, Hc2, read_amt_in_block by lia.
    fold n. split; [reflexivity |]. subst n. lia.
Qed.

Lemma C8_read_clips_to_block_witness :
  pantryfs_read (img 1) (hello_inode 1) 10 4096 true = (0, 4096, [])
  /\ pantryfs_read (img 1) (hello_inode 1) 10 5000 true = (- EINVAL, 5000, [])
  /\ pantryfs_read (img 1) (hello_inode 1) 10 4090 true = (6, 4096, replicate 6 0).
Proof.
  destruct (C8_read_clips_to_block (img 1) (hello_inode 1) 10 4096 true) as [H1 _].
  destruct (C8_read_clips_to_block (img 1) (hello_inode 1) 10 5000 true) as [_ [H2 _]].
  destruct (C8_read_clips_to_block (img 1) (hello_inode 1) 10 4090 true) as [_ [_ H3]].
  split; [apply H1; reflexivity |].
  split; [apply H2; reflexivity |].
  destruct H3 as [H3 _]; [unfold PFS_BLOCK_SIZE; lia | lia | lia
                          | reflexivity | reflexivity | reflexivity |].
  rewrite H3. vm_compute. reflexivity.
Defined.

(** ** The inode store as an array *)

Lemma load_store_inode (l : list pantryfs_inode) (k : nat) (r : pantryfs_inode) :
  (k < length l)%nat -> load_inode (store_inode l (Some k) r) (Some k) = r.
Proof.
  intros Hk. unfold load_inode, store_inode. simpl.
  rewrite list_lookup_insert_eq by exact Hk. reflexivity.
Qed.

Lemma PFS_inode_from_istore_pos (ino : Z) :
  1 <= ino -> PFS_inode_from_istore ino = Some (Z.to_nat (ino - 1)).
Proof.
  intros H. unfold PFS_inode_from_istore.
  destruct (Z.leb_spec 1 ino); [reflexivity | lia].
Qed.

(** ** Write-back: pantryfs_write_inode *)


(** ** File I/O: pantryfs_write *)

(** With nothing left uncopied the count [copy_from_user] hands back is 0. *)
Lemma nothing_left (amt : Z) : Z.max 0 (Z.min 0 amt) = 0.
Proof. lia. Qed.




(** ** The inode cache: pfs_inode, pantryfs_fill_super, pantryfs_lookup *)

Lemma I_NEW_cleared (s : Z) : Z.land (Z.land s (Z.lnot I_NEW)) I_NEW = 0.
Proof.
  rewrite <- Z.land_assoc, (Z.land_comm (Z.lnot I_NEW)), Z.land_lnot_diag.
  apply Z.land_0_r.
Qed.

Lemma truthy_false (x : Z) : truthy x = false <-> x = 0.
Proof. unfold truthy. destruct (Z.eqb_spec x 0); split; intros; congruence || lia. Qed.

Lemma hash_chain_insert (cache : gmap Z (list inode)) (k : Z) (c : list inode) :
  hash_chain (<[k := c]> cache) k = c.
Proof. unfold hash_chain. rewrite lookup_insert_eq. reflexivity. Qed.

Lemma find_inode_fast_Some (c : list inode) (ino : Z) (k : nat) (i : inode) :
  find_inode_fast c ino = Some (k, i) -> c !! k = Some i /\ i_ino i = ino.
Proof.
  unfold find_inode_fast. intros H. apply list_find_Some in H as (H1 & H2 & _).
  split; assumption.
Qed.

Lemma find_inode_fast_None (c : list inode) (ino : Z) :
  find_inode_fast c ino = None <-> Forall (fun i => i_ino i <> ino) c.
Proof. unfold find_inode_fast. apply list_find_None. Qed.

(** [iget_locked] on a chain that holds no inode with the number asked
    for: a new inode goes to the head of the chain. *)
Lemma iget_locked_miss (cache : gmap Z (list inode)) (ino : Z) :
  find_inode_fast (hash_chain cache ino) ino = None ->
  iget_locked cache true ino
  = Some (O, fresh_inode ino, <[ino := fresh_inode ino :: hash_chain cache ino]> cache)
  /\ iget_locked cache false ino = None.
Proof. intros H. unfold iget_locked. rewrite H. split; reflexivity. Qed.

(** Whatever inode number it is given, [pfs_inode] touches the chain of
    key 0 only, and the inode it returns sits on that chain, with [I_NEW]
    clear. *)
Lemma pfs_inode_uses_key_0 (cache cache' : gmap Z (list inode)) (alloc_ok : bool)
    (ino : Z) (r : pantryfs_inode) (i : inode) :
  pfs_inode cache alloc_ok ino r = Some (i, cache') ->
  i ∈ hash_chain cache' 0
  /\ Z.land (i_state i) I_NEW = 0
  /\ forall k, k <> 0 -> cache' !! k = cache !! k.
Proof.
  unfold pfs_inode, iget_locked. intros H.
  destruct (find_inode_fast (hash_chain cache 0) 0) as [[k x] |] eqn:Hx.
  - apply find_inode_fast_Some in Hx as [Hk _].
    destruct (truthy (Z.land (i_state x) I_NEW)) eqn:Hn; cbn [negb] in H;
      injection H as <- <-.
    + split.
      { rewrite hash_chain_insert. apply list_elem_of_lookup. exists k.
        apply list_lookup_insert_eq. apply lookup_lt_Some in Hk. exact Hk. }
      split; [apply I_NEW_cleared |].
      intros j Hj. apply lookup_insert_ne. congruence.
    + split; [apply list_elem_of_lookup; exists k; exact Hk |].
      split; [apply truthy_false; exact Hn |]. reflexivity.
  - destruct alloc_ok; [| discriminate].
    change (truthy (Z.land (i_state (fresh_inode 0)) I_NEW)) with true in H.
    cbn [negb] in H. injection H as <- <-.
    split.
    { rewrite hash_chain_insert. rewrite hash_chain_insert. cbn [insert list_insert].
      apply list_elem_of_here. }
    split; [apply I_NEW_cleared |].
    intros j Hj. rewrite !lookup_insert_ne by congruence. reflexivity.
Qed.

(** No call of [pfs_inode] leaves an inode with [I_NEW] on the chain of
    key 0. *)
Lemma pfs_inode_unlocked (cache cache' : gmap Z (list inode)) (alloc_ok : bool)
    (ino : Z) (r : pantryfs_inode) (i : inode) :
  Forall (fun x => Z.land (i_state x) I_NEW = 0) (hash_chain cache 0) ->
  pfs_inode cache alloc_ok ino r = Some (i, cache') ->
  Forall (fun x => Z.land (i_state x) I_NEW = 0) (hash_chain cache' 0).
Proof.
  unfold pfs_inode, iget_locked. intros Hall H.
  destruct (find_inode_fast (hash_chain cache 0) 0) as [[k x] |] eqn:Hx.
  - destruct (truthy (Z.land (i_state x) I_NEW)) eqn:Hn; cbn [negb] in H;
      injection H as <- <-; [| exact Hall].
    rewrite hash_chain_insert. apply Forall_insert; [exact Hall |].
    apply I_NEW_cleared.
  - destruct alloc_ok; [| discriminate].
    change (truthy (Z.land (i_state (fresh_inode 0)) I_NEW)) with true in H.
    cbn [negb] in H. injection H as <- <-.
    rewrite !hash_chain_insert. cbn [insert list_insert].
    constructor; [apply I_NEW_cleared | exact Hall].
Qed.

(** On a chain of key 0 that holds no inode numbered 0 the request of
    [pfs_inode] misses: the inode handed back is a new one, filled from the
    record and put at the head of the chain; and when its number is not 0
    the next request misses again. *)
Lemma pfs_inode_miss (cache : gmap Z (list inode)) (ino : Z) (r : pantryfs_inode) :
  find_inode_fast (hash_chain cache 0) 0 = None ->
  let i := fill_inode (fresh_inode 0) ino r in
  pfs_inode cache true ino r = Some (i, <[0 := i :: hash_chain cache 0]> cache)
  /\ pfs_inode cache false ino r = None
  /\ (ino <> 0 ->
      find_inode_fast (hash_chain (<[0 := i :: hash_chain cache 0]> cache) 0) 0 = None).
Proof.
  intros Hmiss i. unfold pfs_inode.
  destruct (iget_locked_miss cache 0 Hmiss) as [-> ->].
  change (truthy (Z.land (i_state (fresh_inode 0)) I_NEW)) with true.
  cbn [negb]. rewrite hash_chain_insert. cbn [insert list_insert].
  rewrite insert_insert_eq.
  split; [reflexivity |]. split; [reflexivity |].
  intros Hino. rewrite hash_chain_insert. apply find_inode_fast_None.
  constructor; [exact Hino | apply find_inode_fast_None; exact Hmiss].
Qed.

(** Once an unlocked inode numbered 0 is on the chain of key 0,
    [pfs_inode] hands back the first such inode for every inode number and
    every record. *)
Lemma pfs_inode_hit (cache : gmap Z (list inode)) (alloc_ok : bool) (ino : Z)
    (r : pantryfs_inode) (k : nat) (x : inode) :
  find_inode_fast (hash_chain cache 0) 0 = Some (k, x) ->
  Z.land (i_state x) I_NEW = 0 ->
  pfs_inode cache alloc_ok ino r = Some (x, cache).
Proof.
  intros Hc Hn. unfold pfs_inode, iget_locked. rewrite Hc.
  apply truthy_false in Hn. rewrite Hn. reflexivity.
Qed.





(** ** Creation: pantryfs_create *)

(** The superblock and the inode store after a [create] that found both
    bits: they are the same in the buffer cache and on the device, whatever
    happens to the directory entry. *)
Lemma create_allocated_state (L : layout) (st : pfs) (parent : inode)
    (name : list Z) (mode_arg : Z) (excl : bool) (now : timespec64) :
  sb_bread st PANTRYFS_SUPERBLOCK_DATABLOCK_NUMBER = true ->
  sb_bread st PANTRYFS_INODE_STORE_DATABLOCK_NUMBER = true ->
  let n := first_clear L (free_inodes (b_sb (buf st))) in
  let d := first_clear L (free_data_blocks (b_sb (buf st))) in
  n < PFS_MAX_INODES L -> d < PFS_MAX_INODES L ->
  let st' := snd (pantryfs_create L st parent name mode_arg excl now) in
  let sb' := mkSb (version (b_sb (buf st))) (magic (b_sb (buf st)))
               (SETBIT (free_inodes (b_sb (buf st))) n)
               (SETBIT (free_data_blocks (b_sb (buf st))) d) in
  let istore' := store_inode (b_istore (buf st)) (PFS_inode_from_istore n)
                   (created_record parent now d) in
  (b_sb (buf st') = sb' /\ b_sb (dsk st') = sb')
  /\ (b_istore (buf st') = istore' /\ b_istore (dsk st') = istore').
Proof.
  intros Hsb Hi n d Hn Hd st' sb' istore'.
  subst st'. unfold pantryfs_create. rewrite Hsb. cbn [negb].
  fold n d.
  destruct (Z.eqb_spec n (PFS_MAX_INODES L)) as [Hn' | _]; [lia |].
  destruct (Z.eqb_spec d (PFS_MAX_INODES L)) as [Hd' | _]; [lia |].
  cbn [orb].
  change (sb_bread (sync_sb _) ?b) with (sb_bread st b).
  rewrite Hi. cbn [negb].
  change (sb_bread (sync_istore _) ?b) with (sb_bread st b).
  destruct (negb (sb_bread st _)); [repeat split |].
  destruct (_ =? PFS_MAX_CHILDREN L); repeat split.
Qed.

(** The second silent exit of [pantryfs_create]: every slot of the
    directory is active. *)
Lemma create_dir_full_returns_0 (L : layout) (st : pfs) (parent : inode)
    (name : list Z) (mode_arg : Z) (excl : bool) (now : timespec64) :
  sb_bread st PANTRYFS_SUPERBLOCK_DATABLOCK_NUMBER = true ->
  sb_bread st PANTRYFS_INODE_STORE_DATABLOCK_NUMBER = true ->
  let n := first_clear L (free_inodes (b_sb (buf st))) in
  let d := first_clear L (free_data_blocks (b_sb (buf st))) in
  n < PFS_MAX_INODES L -> d < PFS_MAX_INODES L ->
  let par_no :=
    PFS_datablock_no_from_inode
      (store_inode (b_istore (buf st)) (PFS_inode_from_istore n)
         (created_record parent now d)) parent in
  sb_bread st par_no = true ->
  scan_from (fun i => negb (truthy (active (dentry_at L (dir_view L (buf st) par_no) i))))
            (Z.to_nat (PFS_MAX_CHILDREN L)) 0 = PFS_MAX_CHILDREN L ->
  fst (pantryfs_create L st parent name mode_arg excl now) = 0
  /\ b_dir (buf (snd (pantryfs_create L st parent name mode_arg excl now)))
     = b_dir (buf st).
Proof.
  intros Hsb Hi n d Hn Hd par_no Hp Hfull.
  unfold pantryfs_create. rewrite Hsb. cbn [negb].
  fold n d.
  destruct (Z.eqb_spec n (PFS_MAX_INODES L)) as [Hn' | _]; [lia |].
  destruct (Z.eqb_spec d (PFS_MAX_INODES L)) as [Hd' | _]; [lia |].
  cbn [orb].
  change (sb_bread (sync_sb _) ?b) with (sb_bread st b).
  rewrite Hi. cbn [negb].
  change (sb_bread (sync_istore _) ?b) with (sb_bread st b).
  change (PFS_datablock_no_from_inode _ parent) with par_no.
  rewrite Hp. cbn [negb].
  change (dir_view L (buf (sync_istore _)) par_no)
    with (dir_view L (buf st) par_no).
  rewrite Hfull, Z.eqb_refl. split; reflexivity.
Qed.

(** For every state that satisfies the invariant, a [create] that finds a
    clear inode bit [n >= 1] and a clear data-block bit breaks it: bit [n]
    gets set and slot [n] stays the zero record it was, the new record
    going to slot [n - 1]. *)
Lemma create_breaks_bitmap_inv (L : layout) (st : pfs) (parent : inode)
    (name : list Z) (mode_arg : Z) (excl : bool) (now : timespec64) :
  sb_bread st PANTRYFS_SUPERBLOCK_DATABLOCK_NUMBER = true ->
  sb_bread st PANTRYFS_INODE_STORE_DATABLOCK_NUMBER = true ->
  (Z.to_nat (PFS_MAX_INODES L / 32) < length (free_inodes (b_sb (buf st))))%nat ->
  1 <= first_clear L (free_inodes (b_sb (buf st))) < PFS_MAX_INODES L ->
  first_clear L (free_data_blocks (b_sb (buf st))) < PFS_MAX_INODES L ->
  bitmap_inv L (buf st) = true ->
  bitmap_inv L (buf (snd (pantryfs_create L st parent name mode_arg excl now)))
  = false.
Proof.
  intros Hsb Hi Hlen Hn Hd Hinv.
  set (n := first_clear L (free_inodes (b_sb (buf st)))) in *.
  destruct (create_allocated_state L st parent name mode_arg excl now Hsb Hi)
    as [[Hsb' _] [Hi' _]]; [lia | exact Hd |].
  fold n in Hsb', Hi'.
  set (st' := snd (pantryfs_create L st parent name mode_arg excl now)) in *.
  assert (Hin : In (Z.to_nat n) (seq 0 (Z.to_nat (PFS_MAX_INODES L))))
    by (apply in_seq; lia).
  (* before: bit n is clear, so slot n is the zero record *)
  assert (Hclear : truthy (IS_SET (free_inodes (b_sb (buf st))) n) = false).
  { apply negb_true_iff.
    apply (scan_from_hit
             (fun k => negb (truthy (IS_SET (free_inodes (b_sb (buf st))) k)))
             (Z.to_nat (PFS_MAX_INODES L)) 0).
    fold (first_clear L (free_inodes (b_sb (buf st)))). fold n. lia. }
  assert (Hdead : live (load_inode (b_istore (buf st)) (Some (Z.to_nat n))) = false).
  { unfold bitmap_inv in Hinv. rewrite forallb_forall in Hinv.
    specialize (Hinv _ Hin). unfold bitmap_inv_at in Hinv.
    apply bool_decide_eq_true_1 in Hinv.
    rewrite Z2Nat.id in Hinv by lia. congruence. }
  (* after: bit n is set and slot n is what it was *)
  assert (Hat : bitmap_inv_at (buf st') (Z.to_nat n) = false).
  { unfold bitmap_inv_at. apply bool_decide_eq_false_2.
    rewrite Hsb', Hi'. cbn [free_inodes]. rewrite Z2Nat.id by lia.
    rewrite IS_SET_SETBIT; [| lia |].
    - rewrite PFS_inode_from_istore_pos by lia.
      unfold load_inode, store_inode. cbn [mbind option_bind].
      rewrite list_lookup_insert_ne by lia.
      unfold load_inode in Hdead. cbn [mbind option_bind] in Hdead.
      rewrite Hdead. discriminate.
    - eapply Nat.le_lt_trans; [| exact Hlen].
      apply Z2Nat.inj_le; [apply Z.div_pos; lia | apply Z.div_pos; lia |].
      apply Z.div_le_mono; lia. }
  destruct (bitmap_inv L (buf st')) eqn:Hafter; [| reflexivity].
  unfold bitmap_inv in Hafter. rewrite forallb_forall in Hafter.
  rewrite (Hafter _ Hin) in Hat. discriminate.
Qed.

(** C5, as the source has it.  Take a [create] that can read the
    superblock and the inode store and finds a clear bit [n >= 1] in
    [free_inodes] and a clear bit [d] in [free_data_blocks], the inode
    store holding its [PFS_MAX_INODES] slots.  Whatever happens to the
    directory entry afterwards, the record of inode number [n], in the
    buffer cache and on the device, then has link count 1, the mode
    [S_IFREG | 0666] whatever [mode] the caller passed, size 0, data block
    [d], and its three timestamps equal to the current time. *)
Theorem C5_create_writes_fixed_mode_record (L : layout) (st : pfs) (parent : inode)
    (name : list Z) (mode_arg : Z) (excl : bool) (now : timespec64) :
  sb_bread st PANTRYFS_SUPERBLOCK_DATABLOCK_NUMBER = true ->
  sb_bread st PANTRYFS_INODE_STORE_DATABLOCK_NUMBER = true ->
  length (b_istore (buf st)) = Z.to_nat (PFS_MAX_INODES L) ->
  let n := first_clear L (free_inodes (b_sb (buf st))) in
  let d := first_clear L (free_data_blocks (b_sb (buf st))) in
  1 <= n < PFS_MAX_INODES L -> d < PFS_MAX_INODES L ->
  let st' := snd (pantryfs_create L st parent name mode_arg excl now) in
  let r := load_inode (b_istore (dsk st')) (PFS_inode_from_istore n) in
  r = created_record parent now d
  /\ nlink r = 1 /\ mode r = Z.lor S_IFREG 438 /\ file_size r = 0
  /\ i_atime r = now /\ i_mtime r = now /\ i_ctime r = now
  /\ b_istore (buf st') = b_istore (dsk st').
Proof.
  intros Hsb Hi Hlen n d Hn Hd st' r.
  destruct (create_allocated_state L st parent name mode_arg excl now Hsb Hi)
    as [_ [Hbuf Hdsk]]; [lia | exact Hd |].
  fold n d st' in Hbuf, Hdsk.
  rewrite <- Hdsk in Hbuf.
  assert (Hr : r = created_record parent now d).
  { subst r. rewrite Hdsk, PFS_inode_from_istore_pos by lia.
    apply load_store_inode. lia. }
  rewrite Hr. repeat split; [reflexivity .. | exact Hbuf].
Qed.

Lemma C5_create_writes_fixed_mode_record_witness :
  load_inode
    (b_istore (dsk (snd (pantryfs_create layout64 (img 1) root_inode name_a
                           33188 false (mkTime 5 0)))))
    (PFS_inode_from_istore 2)
  = created_record root_inode (mkTime 5 0) 2.
Proof.
  apply (C5_create_writes_fixed_mode_record layout64 (img 1) root_inode name_a
           33188 false (mkTime 5 0)).
  - reflexivity.
  - reflexivity.
  - reflexivity.
  - vm_compute. split; [discriminate | reflexivity].
  - vm_compute. reflexivity.
Defined.

(** C5 fails as stated: [create] called with mode 0100644 (33188) on the
    formatted image returns 0, enters the name with inode number 2, and the
    mode of the record of inode 2 is 0100666 (33206), not the mode passed. *)
Lemma C5_create_ignores_mode_argument :
  let res := pantryfs_create layout64 (img 1) root_inode name_a 33188 false
               (mkTime 5 0) in
  let r := load_inode (b_istore (dsk (snd res))) (PFS_inode_from_istore 2) in
  fst res = 0
  /\ dentry_at layout64 (dir_view layout64 (dsk (snd res)) 2) 1
     = mkDentry 2 1 (strncpy name_a 247)
  /\ nlink r = 1
  /\ mode r = 33206
  /\ mode r <> 33188.
Proof.
  vm_compute. repeat split; discriminate.
Qed.

(** The first silent exit of [pantryfs_create], for every state: a bitmap
    without a clear bit. *)
Lemma create_no_space_returns_0 (L : layout) (st : pfs) (parent : inode)
    (name : list Z) (mode_arg : Z) (excl : bool) (now : timespec64) :
  sb_bread st PANTRYFS_SUPERBLOCK_DATABLOCK_NUMBER = true ->
  first_clear L (free_inodes (b_sb (buf st))) = PFS_MAX_INODES L
  \/ first_clear L (free_data_blocks (b_sb (buf st))) = PFS_MAX_INODES L ->
  pantryfs_create L st parent name mode_arg excl now = (0, st).
Proof.
  intros Hsb Hfull. unfold pantryfs_create. rewrite Hsb. cbn [negb].
  destruct Hfull as [-> | ->]; rewrite Z.eqb_refl, ?orb_true_r; reflexivity.
Qed.

(** In particular a [create] on a superblock whose inode bits are all set
    reports success and does nothing. *)
Lemma create_exhausted_inodes_returns_0 (L : layout) (st : pfs) (parent : inode)
    (name : list Z) (mode_arg : Z) (excl : bool) (now : timespec64) :
  0 <= PFS_MAX_INODES L ->
  sb_bread st PANTRYFS_SUPERBLOCK_DATABLOCK_NUMBER = true ->
  (forall k, 0 <= k < PFS_MAX_INODES L ->
             truthy (IS_SET (free_inodes (b_sb (buf st))) k) = true) ->
  pantryfs_create L st parent name mode_arg excl now = (0, st).
Proof.
  intros Hmax Hsb Hall. apply create_no_space_returns_0; [exact Hsb |].
  left. apply first_clear_exhausted; assumption.
Qed.

(** C3: the source returns 0 where the claim wants an error.  With every
    inode bit set, [create] returns 0 (success) and leaves the state as it
    was: no inode, no entry.  With every slot of the directory active,
    [create] returns 0 as well: the name is not in the directory afterwards,
    while an inode bit and a data-block bit have been set. *)
Theorem C3_create_returns_success_on_exhaustion :
  first_clear layout64 (free_inodes (b_sb (buf img_no_inode))) = PFS_MAX_INODES layout64
  /\ pantryfs_create layout64 img_no_inode root_inode name_a 33188 false (mkTime 5 0)
     = (0, img_no_inode)
  /\ (let res := pantryfs_create layout64 img_dir_full root_inode name_a 33188
                   false (mkTime 5 0) in
      fst res = 0
      /\ lookup_loop layout64 (dir_view layout64 (buf (snd res)) 2) name_a 16 0 = None
      /\ b_dir (buf (snd res)) = b_dir (buf img_dir_full)
      /\ free_inodes (b_sb (dsk (snd res))) = [7; 0]
      /\ free_data_blocks (b_sb (dsk (snd res))) = [7; 0]).
Proof.
  split; [vm_compute; reflexivity |].
  split; [vm_compute; reflexivity |].
  vm_compute. repeat split.
Qed.

(** ** Removal: PFS_remove_inode, pantryfs_unlink, pantryfs_evict_inode *)

Lemma CLEARBIT_length (A : list Z) (k : Z) : length (CLEARBIT A k) = length A.
Proof.
  unfold CLEARBIT, word_upd. destruct (k <? 0); [reflexivity |]. apply length_alter.
Qed.

(** [CLEARBIT] on the words of two arrays that lie one after the other:
    a bit index inside the first array changes the first array only, a bit
    index past it changes the second, at the index counted from there. *)
Lemma CLEARBIT_app_l (A B : list Z) (k : Z) :
  k < 32 * Z.of_nat (length A) -> CLEARBIT (A ++ B) k = CLEARBIT A k ++ B.
Proof.
  intros Hk. unfold CLEARBIT, word_upd.
  destruct (Z.ltb_spec k 0); [reflexivity |].
  apply alter_app_l.
  assert (k / 32 < Z.of_nat (length A)) by (apply Z.div_lt_upper_bound; lia).
  pose proof (Z.div_pos k 32). lia.
Qed.

Lemma CLEARBIT_app_r (A B : list Z) (k : Z) :
  32 * Z.of_nat (length A) <= k ->
  CLEARBIT (A ++ B) k = A ++ CLEARBIT B (k - 32 * Z.of_nat (length A)).
Proof.
  intros Hk. unfold CLEARBIT, word_upd.
  destruct (Z.ltb_spec k 0); [lia |].
  destruct (Z.ltb_spec (k - 32 * Z.of_nat (length A)) 0); [lia |].
  replace (k - 32 * Z.of_nat (length A)) with (k + - Z.of_nat (length A) * 32) by lia.
  rewrite Z.div_add, Z_mod_plus_full by lia.
  assert (Z.of_nat (length A) <= k / 32) by (apply Z.div_le_lower_bound; lia).
  rewrite alter_app_r_alt by lia. do 2 f_equal. lia.
Qed.

Lemma CLEARBIT_free_inodes_inside (s : pantryfs_super_block) (k : Z) :
  k < 32 * Z.of_nat (length (free_inodes s)) ->
  CLEARBIT_free_inodes s k
  = mkSb (version s) (magic s) (CLEARBIT (free_inodes s) k) (free_data_blocks s).
Proof.
  intros Hk. unfold CLEARBIT_free_inodes. rewrite CLEARBIT_app_l by exact Hk.
  rewrite <- (CLEARBIT_length (free_inodes s) k) at 1 2.
  rewrite take_app_length, drop_app_length. reflexivity.
Qed.

Lemma CLEARBIT_free_inodes_past (s : pantryfs_super_block) (k : Z) :
  32 * Z.of_nat (length (free_inodes s)) <= k ->
  CLEARBIT_free_inodes s k
  = mkSb (version s) (magic s) (free_inodes s)
      (CLEARBIT (free_data_blocks s) (k - 32 * Z.of_nat (length (free_inodes s)))).
Proof.
  intros Hk. unfold CLEARBIT_free_inodes. rewrite CLEARBIT_app_r by exact Hk.
  rewrite take_app_length, drop_app_length. reflexivity.
Qed.

Lemma CLEARBIT_free_inodes_length (s : pantryfs_super_block) (k : Z) :
  length (free_inodes (CLEARBIT_free_inodes s k)) = length (free_inodes s)
  /\ length (free_data_blocks (CLEARBIT_free_inodes s k))
     = length (free_data_blocks s).
Proof.
  unfold CLEARBIT_free_inodes. cbn [free_inodes free_data_blocks].
  rewrite length_take, length_drop, CLEARBIT_length, length_app. lia.
Qed.

(** The words of both bit vectors after [CLEARBIT_free_inodes]. *)
Lemma CLEARBIT_free_inodes_words (s : pantryfs_super_block) (k : Z) :
  free_inodes (CLEARBIT_free_inodes s k) ++ free_data_blocks (CLEARBIT_free_inodes s k)
  = CLEARBIT (free_inodes s ++ free_data_blocks s) k.
Proof. unfold CLEARBIT_free_inodes. cbn [free_inodes free_data_blocks]. apply take_drop. Qed.

(** The superblock [PFS_remove_inode] leaves, in the buffer cache and on
    the device. *)
Lemma PFS_remove_inode_sb (st : pfs) (i : inode) :
  b_sb (buf (PFS_remove_inode st i))
  = CLEARBIT_free_inodes (CLEARBIT_free_inodes (b_sb (buf st)) (i_ino i))
      (PFS_datablock_no_from_inode (b_istore (buf st)) i)
  /\ b_sb (dsk (PFS_remove_inode st i)) = b_sb (buf (PFS_remove_inode st i)).
Proof. split; reflexivity. Qed.

(** [PFS_remove_inode] clears in [free_inodes] twice.  When the number of
    the inode and the number of its data block both index a word of
    [free_inodes], it writes [free_inodes] twice and [free_data_blocks]
    never. *)
Lemma PFS_remove_inode_data_bitmap (st : pfs) (i : inode) :
  i_ino i < 32 * Z.of_nat (length (free_inodes (b_sb (buf st)))) ->
  PFS_datablock_no_from_inode (b_istore (buf st)) i
  < 32 * Z.of_nat (length (free_inodes (b_sb (buf st)))) ->
  free_inodes (b_sb (buf (PFS_remove_inode st i)))
  = CLEARBIT (CLEARBIT (free_inodes (b_sb (buf st))) (i_ino i))
      (PFS_datablock_no_from_inode (b_istore (buf st)) i)
  /\ free_data_blocks (b_sb (buf (PFS_remove_inode st i)))
     = free_data_blocks (b_sb (buf st))
  /\ free_data_blocks (b_sb (dsk (PFS_remove_inode st i)))
     = free_data_blocks (b_sb (buf st)).
Proof.
  intros Hino Hdb. destruct (PFS_remove_inode_sb st i) as [Hb Hd].
  rewrite Hd, Hb. rewrite (CLEARBIT_free_inodes_inside _ (i_ino i)) by exact Hino.
  rewrite CLEARBIT_free_inodes_inside
    by (cbn [free_inodes]; rewrite CLEARBIT_length; exact Hdb).
  repeat split.
Qed.

(** And when the number of the data block is past the words of
    [free_inodes], the second clear lands in [free_data_blocks], at the
    bit counted from the end of [free_inodes]. *)
Lemma PFS_remove_inode_reaches_data_bitmap (st : pfs) (i : inode) :
  let len := Z.of_nat (length (free_inodes (b_sb (buf st)))) in
  let db_no := PFS_datablock_no_from_inode (b_istore (buf st)) i in
  i_ino i < 32 * len -> 32 * len <= db_no ->
  free_inodes (b_sb (buf (PFS_remove_inode st i)))
  = CLEARBIT (free_inodes (b_sb (buf st))) (i_ino i)
  /\ free_data_blocks (b_sb (buf (PFS_remove_inode st i)))
     = CLEARBIT (free_data_blocks (b_sb (buf st))) (db_no - 32 * len).
Proof.
  intros len db_no Hino Hdb. destruct (PFS_remove_inode_sb st i) as [Hb _].
  rewrite Hb. rewrite (CLEARBIT_free_inodes_inside _ (i_ino i)) by exact Hino.
  fold db_no. rewrite CLEARBIT_free_inodes_past
    by (cbn [free_inodes]; rewrite CLEARBIT_length; exact Hdb).
  cbn [free_inodes free_data_blocks]. rewrite CLEARBIT_length. split; reflexivity.
Qed.

(** What the reclamation does achieve: the bit numbered like the inode is
    clear and the record of the inode is zero-filled, on the device as in
    the buffer cache. *)
Lemma PFS_remove_inode_inode_bit_and_record (st : pfs) (i : inode) :
  1 <= i_ino i ->
  (Z.to_nat (i_ino i / 32) < length (free_inodes (b_sb (buf st))))%nat ->
  i_ino i <= Z.of_nat (length (b_istore (buf st))) ->
  let st' := PFS_remove_inode st i in
  IS_SET (free_inodes (b_sb (dsk st'))) (i_ino i) = 0
  /\ load_inode (b_istore (dsk st')) (PFS_inode_from_istore (i_ino i)) = zero_inode
  /\ b_sb (buf st') = b_sb (dsk st')
  /\ b_istore (buf st') = b_istore (dsk st').
Proof.
  intros Hino Hw Hslot st'. subst st'.
  assert (Hin : i_ino i < 32 * Z.of_nat (length (free_inodes (b_sb (buf st))))).
  { pose proof (Z.div_pos (i_ino i) 32).
    pose proof (Z.mul_div_le (i_ino i) 32). pose proof (Z.mod_pos_bound (i_ino i) 32).
    pose proof (Z.div_mod (i_ino i) 32). lia. }
  split; [| split; [| split; reflexivity]].
  - destruct (PFS_remove_inode_sb st i) as [Hb Hd]. rewrite Hd.
    set (db_no := PFS_datablock_no_from_inode (b_istore (buf st)) i) in *.
    destruct (Z.lt_ge_cases db_no
                (32 * Z.of_nat (length (free_inodes (b_sb (buf st)))))) as [Hdb | Hdb].
    + destruct (PFS_remove_inode_data_bitmap st i Hin Hdb) as (-> & _).
      apply IS_SET_CLEARBIT_clear; [lia |].
      apply IS_SET_CLEARBIT; [lia | exact Hw].
    + destruct (PFS_remove_inode_reaches_data_bitmap st i Hin Hdb) as (-> & _).
      apply IS_SET_CLEARBIT; [lia | exact Hw].
  - unfold PFS_remove_inode.
    unfold sync_istore, sync_sb, with_dsk, with_buf, set_istore, set_sb.
    cbn [dsk buf b_sb b_istore].
    rewrite PFS_inode_from_istore_pos by lia.
    apply load_store_inode. lia.
Qed.

(** No path of [pantryfs_unlink] changes [free_data_blocks] in the buffer
    cache when the number of the inode and the number of its data block
    both index a word of [free_inodes]. *)
Lemma unlink_data_bitmap (L : layout)
    (alias : Z -> list pantryfs_dir_entry -> list pantryfs_dir_entry)
    (st : pfs) (dir : inode) (name : list Z) (di : inode) :
  i_ino di < 32 * Z.of_nat (length (free_inodes (b_sb (buf st)))) ->
  PFS_datablock_no_from_inode (b_istore (buf st)) di
  < 32 * Z.of_nat (length (free_inodes (b_sb (buf st)))) ->
  free_data_blocks (b_sb (buf (snd (fst (pantryfs_unlink L alias st dir name di)))))
  = free_data_blocks (b_sb (buf st)).
Proof.
  intros Hino Hdb. unfold pantryfs_unlink.
  repeat match goal with
         | |- context [if ?c then (_, _, _) else _] => destruct c
         end; try reflexivity.
  cbn [fst snd].
  match goal with
  | |- context [PFS_remove_inode ?s ?j] =>
      destruct (PFS_remove_inode_data_bitmap s j) as (_ & H & _);
        [exact Hino | exact Hdb | exact H]
  end.
Qed.

(** C1: the source never clears the data-block bit.  "a" is created on the
    formatted image (inode bit 2 and data-block bit 2 get set, the record
    is written), then unlinked through its singly-linked inode.  [unlink]
    returns 0, the link count is 0, the inode bit is clear again and the
    record is zero-filled, and the data-block bit that [create] set is
    still set, in the buffer cache and on the device. *)
Theorem C1_unlink_leaves_data_block_bit_set
    (alias : Z -> list pantryfs_dir_entry -> list pantryfs_dir_entry) :
  let res := pantryfs_unlink layout64 alias img_created root_inode name_a a_inode in
  let st' := snd (fst res) in
  (IS_SET (free_inodes (b_sb (buf (img 1)))) 2 = 0
   /\ IS_SET (free_data_blocks (b_sb (buf (img 1)))) 2 = 0)
  /\ (IS_SET (free_inodes (b_sb (buf img_created))) 2 <> 0
      /\ IS_SET (free_data_blocks (b_sb (buf img_created))) 2 <> 0
      /\ data_block_number (load_inode (b_istore (buf img_created))
                              (PFS_inode_from_istore 2)) = 2)
  /\ i_nlink a_inode = 1
  /\ fst (fst res) = 0
  /\ i_nlink (snd res) = 0
  /\ IS_SET (free_inodes (b_sb (dsk st'))) 2 = 0
  /\ load_inode (b_istore (dsk st')) (PFS_inode_from_istore 2) = zero_inode
  /\ IS_SET (free_data_blocks (b_sb (buf st'))) 2 <> 0
  /\ IS_SET (free_data_blocks (b_sb (dsk st'))) 2 <> 0.
Proof.
  vm_compute. repeat split; discriminate.
Qed.

(** While the in-memory link count stays above zero, [pantryfs_unlink]
    leaves the inode store as it was: its decrement goes through a pointer
    into the directory block. *)
Lemma unlink_keeps_istore (L : layout)
    (alias : Z -> list pantryfs_dir_entry -> list pantryfs_dir_entry)
    (st : pfs) (dir : inode) (name : list Z) (di : inode) :
  u32 (i_nlink di - 1) <> 0 ->
  b_istore (buf (snd (fst (pantryfs_unlink L alias st dir name di))))
  = b_istore (buf st).
Proof.
  intros Hn. unfold pantryfs_unlink.
  destruct (negb (sb_bread st _)); [reflexivity |].
  destruct (negb (sb_bread st _)); [reflexivity |].
  destruct (_ =? PFS_MAX_CHILDREN L); [reflexivity |].
  cbn [i_nlink mark_inode_dirty drop_nlink set_i_nlink].
  destruct (Z.eqb_spec (u32 (i_nlink di - 1)) 0) as [H0 | _]; [contradiction |].
  reflexivity.
Qed.

(** C2: the source decrements through the directory buffer.  "hello.txt"
    has link count 2 in its record and in its inode.  [unlink] returns 0
    and removes the entry, the in-memory link count becomes 1, and the link
    count of the record in the inode store is still 2, in the buffer cache
    and on the device; the directory buffer is what received the
    decrement. *)
Theorem C2_unlink_leaves_record_link_count
    (alias : Z -> list pantryfs_dir_entry -> list pantryfs_dir_entry) :
  let res := pantryfs_unlink layout64 alias (img 2) root_inode name_hello
               (hello_inode 2) in
  let st' := snd (fst res) in
  nlink (load_inode (b_istore (dsk (img 2))) (PFS_inode_from_istore 2)) = 2
  /\ i_nlink (hello_inode 2) = 2
  /\ fst (fst res) = 0
  /\ lookup_loop layout64 (dir_view layout64 (dsk st') 2) name_hello 16 0 = None
  /\ i_nlink (snd res) = 1
  /\ nlink (load_inode (b_istore (buf st')) (PFS_inode_from_istore 2)) = 2
  /\ nlink (load_inode (b_istore (dsk st')) (PFS_inode_from_istore 2)) = 2
  /\ dir_view layout64 (buf st') 2
     = alias 2 (zero_dentry layout64 :: replicate 15 (zero_dentry layout64)).
Proof.
  vm_compute. repeat split.
Qed.

(** C4: the source pairs bit [n] with slot [n - 1].  The formatted image
    satisfies the invariant.  [create] picks the first clear bit, 2, sets
    it, and writes the new record into the slot of inode number 2, slot 1,
    over the live record of "hello.txt"; slot 2, the slot of bit 2, stays
    zero-filled, so the invariant fails afterwards.  Reclaiming
    "hello.txt" (inode 2, block 3) on the image clears bits 2 and 3 of
    [free_inodes], which are clear already, and zero-fills slot 1 while
    bit 1 stays set, so the invariant fails there too. *)
Theorem C4_create_and_reclaim_break_bitmap_invariant
    (alias : Z -> list pantryfs_dir_entry -> list pantryfs_dir_entry) :
  bitmap_inv layout64 (buf (img 1)) = true
  /\ load_inode (b_istore (buf (img 1))) (Some 1%nat) = hello_rec 1
  /\ (let res := pantryfs_create layout64 (img 1) root_inode name_a 33188 false
                   (mkTime 5 0) in
      fst res = 0
      /\ first_clear layout64 (free_inodes (b_sb (buf (img 1)))) = 2
      /\ truthy (IS_SET (free_inodes (b_sb (buf (snd res)))) 2) = true
      /\ load_inode (b_istore (buf (snd res))) (Some 2%nat) = zero_inode
      /\ load_inode (b_istore (buf (snd res))) (Some 1%nat)
         = created_record root_inode (mkTime 5 0) 2
      /\ bitmap_inv_at (buf (snd res)) 2 = false
      /\ bitmap_inv layout64 (buf (snd res)) = false
      /\ bitmap_inv layout64 (dsk (snd res)) = false)
  /\ (let res := pantryfs_unlink layout64 alias (img 1) root_inode name_hello
                   (hello_inode 1) in
      fst (fst res) = 0
      /\ truthy (IS_SET (free_inodes (b_sb (buf (snd (fst res))))) 1) = true
      /\ load_inode (b_istore (buf (snd (fst res)))) (Some 1%nat) = zero_inode
      /\ bitmap_inv layout64 (buf (snd (fst res))) = false
      /\ bitmap_inv layout64 (dsk (snd (fst res))) = false).
Proof.
  vm_compute. repeat split.
Qed.

(** [pantryfs_evict_inode] never reads the link count: when both blocks
    can be read it is [PFS_remove_inode]. *)
Lemma evict_ignores_link_count (st : pfs) (i : inode) :
  sb_bread st PANTRYFS_INODE_STORE_DATABLOCK_NUMBER = true ->
  sb_bread st PANTRYFS_SUPERBLOCK_DATABLOCK_NUMBER = true ->
  pantryfs_evict_inode st i = PFS_remove_inode st i.
Proof.
  intros Hi Hs. unfold pantryfs_evict_inode. rewrite Hi, Hs. reflexivity.
Qed.

(** C9: the source has no guard in [evict].  Evicting the inode of
    "hello.txt" while its link count is 1 runs the reclamation: the live
    record is zero-filled on the device and the directory entry still
    names inode 2.  And evicting the inode of "a" after [unlink] has
    already reclaimed it runs the reclamation a second time: it reads data
    block number 0 from the zero-filled record and clears bit 0 of
    [free_inodes]. *)
Theorem C9_evict_reclaims_without_guard
    (alias : Z -> list pantryfs_dir_entry -> list pantryfs_dir_entry) :
  (let st' := pantryfs_evict_inode (img 1) (hello_inode 1) in
   i_nlink (hello_inode 1) = 1
   /\ load_inode (b_istore (dsk (img 1))) (PFS_inode_from_istore 2) = hello_rec 1
   /\ st' = PFS_remove_inode (img 1) (hello_inode 1)
   /\ load_inode (b_istore (buf st')) (PFS_inode_from_istore 2) = zero_inode
   /\ load_inode (b_istore (dsk st')) (PFS_inode_from_istore 2) = zero_inode
   /\ dentry_at layout64 (dir_view layout64 (dsk st') 2) 0
      = mkDentry 2 1 (strncpy name_hello 247))
  /\ (let res := pantryfs_unlink layout64 alias img_created root_inode name_a a_inode in
      let st' := pantryfs_evict_inode (snd (fst res)) (snd res) in
      i_nlink (snd res) = 0
      /\ free_inodes (b_sb (dsk (snd (fst res)))) = [3; 0]
      /\ load_inode (b_istore (dsk (snd (fst res)))) (PFS_inode_from_istore 2)
         = zero_inode
      /\ free_inodes (b_sb (dsk st')) = [2; 0]).
Proof.
  vm_compute. repeat split.
Qed.

(** ** Directory listing: pantryfs_iterate *)

(** A call that starts at or past [PFS_MAX_CHILDREN + 3] emits nothing. *)
Lemma iterate_done_emits_nothing (L : layout) (A : Type)
    (actor : A -> dirent -> bool * A) (st : pfs) (dir_inode : inode)
    (parent_ino : Z) (ctx : dir_context A) :
  pos ctx > PFS_MAX_CHILDREN L + 2 ->
  pantryfs_iterate L actor st dir_inode parent_ino ctx = (0, ctx).
Proof.
  intros H. unfold pantryfs_iterate.
  destruct (Z.gtb_spec (pos ctx) (PFS_MAX_CHILDREN L + 2)); [reflexivity | lia].
Qed.

(** A call that gets past "." and ".." and reads its blocks leaves the
    cursor at [PFS_MAX_CHILDREN + 3], whether or not the loop ran to its
    end. *)
Lemma iterate_always_ends_done (L : layout) (A : Type)
    (actor : A -> dirent -> bool * A) (st : pfs) (dir_inode : inode)
    (parent_ino : Z) (ctx : dir_context A) :
  pos ctx <= PFS_MAX_CHILDREN L + 2 ->
  fst (dir_emit_dots actor (i_ino dir_inode) parent_ino ctx) = true ->
  sb_bread st PANTRYFS_INODE_STORE_DATABLOCK_NUMBER = true ->
  sb_bread st (PFS_datablock_no_from_inode (b_istore (buf st)) dir_inode) = true ->
  pos (snd (pantryfs_iterate L actor st dir_inode parent_ino ctx))
  = PFS_MAX_CHILDREN L + 3.
Proof.
  intros Hp Hdots Hi Hd. unfold pantryfs_iterate.
  destruct (Z.gtb_spec (pos ctx) (PFS_MAX_CHILDREN L + 2)); [lia |].
  destruct (dir_emit_dots actor (i_ino dir_inode) parent_ino ctx) as [res ctx1].
  cbn [fst] in Hdots. subst res. cbn [negb].
  rewrite Hi, Hd. reflexivity.
Qed.

(** So whatever the first call delivered, a second call from the cursor it
    left delivers nothing, for every directory and every callback. *)
Lemma iterate_second_call_is_empty (L : layout) (A : Type)
    (actor actor' : A -> dirent -> bool * A) (st st' : pfs)
    (dir_inode : inode) (parent_ino : Z) (ctx : dir_context A) (a : A) :
  pos ctx <= PFS_MAX_CHILDREN L + 2 ->
  fst (dir_emit_dots actor (i_ino dir_inode) parent_ino ctx) = true ->
  sb_bread st PANTRYFS_INODE_STORE_DATABLOCK_NUMBER = true ->
  sb_bread st (PFS_datablock_no_from_inode (b_istore (buf st)) dir_inode) = true ->
  let p := pos (snd (pantryfs_iterate L actor st dir_inode parent_ino ctx)) in
  pantryfs_iterate L actor' st' dir_inode parent_ino (mkCtx p a) = (0, mkCtx p a).
Proof.
  intros Hp Hdots Hi Hd p.
  apply iterate_done_emits_nothing. subst p.
  rewrite iterate_always_ends_done by assumption.
  cbn [pos]. lia.
Qed.

(** C10: the source sets the cursor to "done" after an early stop.  The
    directory holds "a" and "b".  A first call whose callback has room for
    three entries receives ".", ".." and "a", declines "b", and the call
    leaves the cursor at 19, past [PFS_MAX_CHILDREN + 2] = 18.  A second
    call from that cursor, with room for ten entries, returns 0 and emits
    nothing: "b" is never delivered, although a call from the start with
    room enough delivers all four entries. *)
Theorem C10_iterate_loses_entries_after_early_stop :
  let c1 := pantryfs_iterate layout64 room_actor img_two root_inode 1
              (mkCtx 0 (3%nat, [])) in
  let c2 := pantryfs_iterate layout64 room_actor img_two root_inode 1
              (mkCtx (pos (snd c1)) (10%nat, [])) in
  let c := pantryfs_iterate layout64 room_actor img_two root_inode 1
             (mkCtx 0 (10%nat, [])) in
  PFS_MAX_CHILDREN layout64 = 16
  /\ fst c1 = 0
  /\ names_of (actor_data (snd c1)) = [[46]; [46; 46]; name_a]
  /\ pos (snd c1) = 19
  /\ fst c2 = 0
  /\ names_of (actor_data (snd c2)) = []
  /\ pos (snd c2) = 19
  /\ names_of (actor_data (snd c)) = [[46]; [46; 46]; name_a; name_b].
Proof.
  vm_compute. repeat split.
Qed.

(** * Further properties of the code *)

Lemma mask_testbit (b n : Z) : 0 <= b -> Z.testbit (Z.shiftl 1 b) n = (b =? n).
Proof. intros Hb. rewrite Z.shiftl_1_l. apply Z.pow2_bits_eqb. exact Hb. Qed.

(** The C truth value of [w & (1 << b)] is bit [b] of [w]. *)
Lemma truthy_land_mask (w b : Z) :
  0 <= b -> truthy (Z.land w (Z.shiftl 1 b)) = Z.testbit w b.
Proof.
  intros Hb. unfold truthy.
  destruct (Z.testbit w b) eqn:Hw.
  - destruct (Z.eqb_spec (Z.land w (Z.shiftl 1 b)) 0) as [H0 | _]; [| reflexivity].
    apply (f_equal (fun x => Z.testbit x b)) in H0.
    rewrite Z.land_spec, mask_testbit, Z.eqb_refl, Hw, Z.bits_0 in H0 by exact Hb.
    discriminate.
  - replace (Z.land w (Z.shiftl 1 b)) with 0; [reflexivity |].
    symmetry. apply Z.bits_inj'. intros n Hn.
    rewrite Z.land_spec, mask_testbit, Z.bits_0 by exact Hb.
    destruct (Z.eqb_spec b n) as [<- | _]; [rewrite Hw |]; 
      rewrite ?andb_false_r; reflexivity.
Qed.

Lemma truthy_IS_SET (A : list Z) (j : Z) :
  truthy (IS_SET A j) = Z.testbit (word_at A j) (j mod 32).
Proof.
  unfold IS_SET. apply truthy_land_mask. apply Z.mod_pos_bound. lia.
Qed.

Lemma word_at_upd_other (f : Z -> Z) (A : list Z) (k j : Z) :
  0 <= k -> 0 <= j -> k / 32 <> j / 32 ->
  word_at (word_upd f A k) j = word_at A j.
Proof.
  intros Hk Hj Hne. unfold word_at, word_upd.
  destruct (Z.ltb_spec k 0); [lia |].
  destruct (Z.ltb_spec j 0); [lia |].
  rewrite list_lookup_alter_ne; [reflexivity |].
  intros Heq. apply Hne.
  apply Z2Nat.inj; [apply Z.div_pos; lia | apply Z.div_pos; lia | exact Heq].
Qed.

Lemma word_at_upd_same (f : Z -> Z) (A : list Z) (k j : Z) :
  0 <= k -> 0 <= j -> k / 32 = j / 32 ->
  (Z.to_nat (k / 32) < length A)%nat ->
  word_at (word_upd f A k) j = f (word_at A j).
Proof.
  intros Hk Hj Heq Hlen. unfold word_at, word_upd.
  destruct (Z.ltb_spec k 0); [lia |].
  destruct (Z.ltb_spec j 0); [lia |].
  rewrite <- Heq, list_lookup_alter_eq.
  destruct (lookup_lt_is_Some_2 A _ Hlen) as [w Hw].
  rewrite Hw. reflexivity.
Qed.

Lemma same_bit_iff (k j : Z) :
  j = k <-> k / 32 = j / 32 /\ k mod 32 = j mod 32.
Proof.
  split; [intros ->; split; reflexivity |].
  intros [Hq Hr].
  rewrite (Z.div_mod j 32), (Z.div_mod k 32) by lia. lia.
Qed.

(** [SETBIT] sets bit [k] and no other. *)
Lemma truthy_IS_SET_SETBIT (A : list Z) (k j : Z) :
  0 <= k -> 0 <= j -> (Z.to_nat (k / 32) < length A)%nat ->
  truthy (IS_SET (SETBIT A k) j) = (j =? k) || truthy (IS_SET A j).
Proof.
  intros Hk Hj Hlen. rewrite !truthy_IS_SET. unfold SETBIT.
  assert (Hbk : 0 <= k mod 32 < 32) by (apply Z.mod_pos_bound; lia).
  assert (Hbj : 0 <= j mod 32 < 32) by (apply Z.mod_pos_bound; lia).
  destruct (Z.eq_dec (k / 32) (j / 32)) as [Hq | Hq].
  - rewrite word_at_upd_same by assumption.
    rewrite Z.lor_spec, mask_testbit by lia.
    destruct (Z.eqb_spec (k mod 32) (j mod 32)) as [Hr | Hr].
    + assert (j = k) as -> by (apply same_bit_iff; split; assumption).
      rewrite Z.eqb_refl, orb_true_r. reflexivity.
    + destruct (Z.eqb_spec j k) as [-> | _]; [contradiction |].
      rewrite orb_false_r. reflexivity.
  - rewrite word_at_upd_other by assumption.
    destruct (Z.eqb_spec j k) as [-> | _]; [contradiction |]. reflexivity.
Qed.

(** [CLEARBIT] clears bit [k] and no other. *)
Lemma truthy_IS_SET_CLEARBIT (A : list Z) (k j : Z) :
  0 <= k -> 0 <= j ->
  truthy (IS_SET (CLEARBIT A k) j) = negb (j =? k) && truthy (IS_SET A j).
Proof.
  intros Hk Hj. rewrite !truthy_IS_SET. unfold CLEARBIT.
  assert (Hbk : 0 <= k mod 32 < 32) by (apply Z.mod_pos_bound; lia).
  assert (Hbj : 0 <= j mod 32 < 32) by (apply Z.mod_pos_bound; lia).
  destruct (Z.eq_dec (k / 32) (j / 32)) as [Hq | Hq].
  - destruct (decide (Z.to_nat (k / 32) < length A)%nat) as [Hlen | Hlen].
    + rewrite word_at_upd_same by assumption.
      unfold u32. rewrite Z.mod_pow2_bits_low by lia.
      rewrite Z.land_spec, Z.lnot_spec, mask_testbit by lia.
      destruct (Z.eqb_spec (k mod 32) (j mod 32)) as [Hr | Hr].
      * assert (j = k) as -> by (apply same_bit_iff; split; assumption).
        rewrite Z.eqb_refl, andb_false_r. reflexivity.
      * destruct (Z.eqb_spec j k) as [-> | _]; [contradiction |].
        rewrite andb_true_r. reflexivity.
    + (* the word lies outside the array: nothing is written, the bit reads 0 *)
      assert (Hw : forall B, length B = length A -> word_at B j = 0).
      { intros B HB. unfold word_at. destruct (Z.ltb_spec j 0); [reflexivity |].
        rewrite <- Hq, lookup_ge_None_2; [reflexivity | lia]. }
      rewrite !Hw, Z.bits_0, andb_false_r; [reflexivity | reflexivity |].
      unfold word_upd. destruct (k <? 0); [reflexivity |].
      apply length_alter.
  - rewrite word_at_upd_other by assumption.
    destruct (Z.eqb_spec j k) as [-> | _]; [contradiction |]. reflexivity.
Qed.

(** X1.  The three macros of pantryfs_sb.h agree: for a bit [k] whose word
    lies inside the array, after [SETBIT(A, k)] the test [IS_SET] holds at
    [j] exactly when [j = k] or it held before, and after [CLEARBIT(A, k)]
    it holds at [j] exactly when [j <> k] and it held before; clearing a bit
    that was just set gives back the truth value of every bit whenever bit
    [k] was clear. *)
Theorem X1_bit_macros_touch_one_bit (A : list Z) (k j : Z) :
  0 <= k -> 0 <= j -> (Z.to_nat (k / 32) < length A)%nat ->
  truthy (IS_SET (SETBIT A k) j) = (j =? k) || truthy (IS_SET A j)
  /\ truthy (IS_SET (CLEARBIT A k) j) = negb (j =? k) && truthy (IS_SET A j)
  /\ (truthy (IS_SET A k) = false ->
      truthy (IS_SET (CLEARBIT (SETBIT A k) k) j) = truthy (IS_SET A j)).
Proof.
  intros Hk Hj Hlen.
  split; [apply truthy_IS_SET_SETBIT; assumption |].
  split; [apply truthy_IS_SET_CLEARBIT; assumption |].
  intros Hclear.
  rewrite truthy_IS_SET_CLEARBIT, truthy_IS_SET_SETBIT by assumption.
  destruct (Z.eqb_spec j k) as [-> | _]; [rewrite Hclear |]; reflexivity.
Qed.

Lemma X1_bit_macros_touch_one_bit_witness :
  truthy (IS_SET (SETBIT [3; 0] 37) 37) = true
  /\ truthy (IS_SET (SETBIT [3; 0] 37) 36) = false
  /\ truthy (IS_SET (CLEARBIT [3; 0] 1) 0) = true
  /\ truthy (IS_SET (CLEARBIT [3; 0] 1) 1) = false.
Proof.
  destruct (X1_bit_macros_touch_one_bit [3; 0] 37 37) as (H1 & _ & _);
    [lia | lia | vm_compute; lia |].
  destruct (X1_bit_macros_touch_one_bit [3; 0] 37 36) as (H2 & _ & _);
    [lia | lia | vm_compute; lia |].
  destruct (X1_bit_macros_touch_one_bit [3; 0] 1 0) as (_ & H3 & _);
    [lia | lia | vm_compute; lia |].
  destruct (X1_bit_macros_touch_one_bit [3; 0] 1 1) as (_ & H4 & _);
    [lia | lia | vm_compute; lia |].
  rewrite H1, H2, H3, H4. vm_compute. repeat split.
Defined.

Lemma PFS_MAX_INODES_nonneg (L : layout) :
  0 < sizeof_pantryfs_inode L -> 0 <= PFS_MAX_INODES L.
Proof. intros H. unfold PFS_MAX_INODES, PFS_BLOCK_SIZE. apply Z.div_pos; lia. Qed.

(** X2.  The bitmap scan of [pantryfs_create], for a positive record size:
    it returns the lowest-numbered clear bit below [PFS_MAX_INODES] --
    every bit below the result is set and the result itself is clear -- and
    it returns [PFS_MAX_INODES] exactly when every bit below
    [PFS_MAX_INODES] is set. *)
Theorem X2_first_clear_is_lowest_clear_bit (L : layout) (A : list Z) :
  0 < sizeof_pantryfs_inode L ->
  let n := first_clear L A in
  0 <= n <= PFS_MAX_INODES L
  /\ (forall k, 0 <= k < n -> truthy (IS_SET A k) = true)
  /\ (n < PFS_MAX_INODES L -> truthy (IS_SET A n) = false)
  /\ (n = PFS_MAX_INODES L <->
      forall k, 0 <= k < PFS_MAX_INODES L -> truthy (IS_SET A k) = true).
Proof.
  intros Hs n. pose proof (PFS_MAX_INODES_nonneg L Hs) as Hmax.
  destruct (first_clear_spec L A Hmax) as (Hb & Hbelow & Hat).
  fold n in Hb, Hbelow, Hat.
  split; [exact Hb |]. split; [exact Hbelow |]. split; [exact Hat |].
  split.
  - intros Hn k Hk. apply Hbelow. lia.
  - intros Hall. apply first_clear_exhausted; assumption.
Qed.

Lemma X2_first_clear_is_lowest_clear_bit_witness :
  first_clear layout64 [7; 0] = 3
  /\ truthy (IS_SET [7; 0] 2) = true
  /\ truthy (IS_SET [7; 0] 3) = false.
Proof.
  destruct (X2_first_clear_is_lowest_clear_bit layout64 [7; 0])
    as (_ & Hbelow & Hat & _); [reflexivity |].
  split; [reflexivity |]. split.
  - apply Hbelow. vm_compute. split; [discriminate | reflexivity].
  - apply Hat. vm_compute. reflexivity.
Defined.

(** After [SETBIT] at the first clear bit the scan moves on. *)
Lemma first_clear_after_SETBIT (L : layout) (A : list Z) :
  0 < sizeof_pantryfs_inode L ->
  (Z.to_nat (PFS_MAX_INODES L / 32) < length A)%nat ->
  first_clear L A < PFS_MAX_INODES L ->
  first_clear L A < first_clear L (SETBIT A (first_clear L A)).
Proof.
  intros Hs Hlen Hn. pose proof (PFS_MAX_INODES_nonneg L Hs) as Hmax.
  set (n := first_clear L A) in *.
  destruct (first_clear_spec L A Hmax) as (Hb & Hbelow & _). fold n in Hb, Hbelow.
  destruct (first_clear_spec L (SETBIT A n) Hmax) as (Hb' & _ & Hat').
  set (n' := first_clear L (SETBIT A n)) in *.
  destruct (Z.lt_ge_cases n n') as [Hlt | Hge]; [exact Hlt |].
  exfalso. specialize (Hat' ltac:(lia)).
  rewrite truthy_IS_SET_SETBIT in Hat'; [| lia | lia |].
  - destruct (Z.eqb_spec n' n) as [Heq | Hne]; [discriminate |].
    rewrite Hbelow in Hat' by lia. discriminate.
  - eapply Nat.le_lt_trans; [| exact Hlen].
    apply Z2Nat.inj_le; [apply Z.div_pos; lia | apply Z.div_pos; lia |].
    apply Z.div_le_mono; lia.
Qed.

(** ** C strings *)

Lemma cstr_nonzero (b : list Z) : Forall (fun c => c <> 0) (cstr b).
Proof.
  induction b as [| c b IH]; cbn [cstr]; [constructor |].
  destruct (Z.eqb_spec c 0); [constructor |]. constructor; assumption.
Qed.

Lemma cstr_id (l : list Z) : Forall (fun c => c <> 0) l -> cstr l = l.
Proof.
  induction 1 as [| c l Hc _ IH]; cbn [cstr]; [reflexivity |].
  destruct (Z.eqb_spec c 0); [contradiction |]. rewrite IH. reflexivity.
Qed.

Lemma cstr_app_zero (l r : list Z) :
  Forall (fun c => c <> 0) l -> cstr (l ++ 0 :: r) = l.
Proof.
  induction 1 as [| c l Hc _ IH]; cbn [cstr app]; [reflexivity |].
  destruct (Z.eqb_spec c 0); [contradiction |]. rewrite IH. reflexivity.
Qed.

(** The string held by the buffer that [strncpy] fills: the name cut at
    the buffer size. *)
Lemma cstr_strncpy (name : list Z) (n : nat) :
  cstr (strncpy name n) = take n (cstr name).
Proof.
  unfold strncpy. pose proof (cstr_nonzero name) as Hnz.
  set (c := cstr name) in *.
  destruct (Nat.le_gt_cases n (length c)) as [Hle | Hgt].
  - rewrite take_app_le by exact Hle.
    apply cstr_id. apply Forall_take. exact Hnz.
  - rewrite take_app_ge by lia.
    rewrite take_replicate, take_ge by lia.
    replace (Nat.min (n - length c) n) with (S (n - length c - 1)) by lia.
    cbn [replicate]. apply cstr_app_zero. exact Hnz.
Qed.

(** [strncmp] over the buffer size accepts the name [strncpy] stored. *)
Lemma strncmp_eq_strncpy (name : list Z) (n : nat) :
  strncmp_eq (strncpy name n) name n = true.
Proof.
  unfold strncmp_eq. apply bool_decide_eq_true_2.
  rewrite cstr_strncpy, take_take, Nat.min_id. reflexivity.
Qed.


(** ** The directory scan of pantryfs_lookup *)



Lemma lookup_loop_first (L : layout) (d : list pantryfs_dir_entry) (name : list Z)
    (n : nat) (k j : Z) :
  k <= j < k + Z.of_nat n ->
  (forall i, k <= i < j -> matches L name (dentry_at L d i) = false) ->
  matches L name (dentry_at L d j) = true ->
  lookup_loop L d name n k = Some (dentry_at L d j).
Proof.
  revert k. induction n as [| n IH]; intros k Hj Hbefore Hat; [lia |].
  cbn [lookup_loop].
  destruct (Z.eq_dec k j) as [-> | Hne].
  - unfold matches in Hat. apply andb_true_iff in Hat as [Ha Hm].
    rewrite Ha, Hm. reflexivity.
  - specialize (Hbefore k ltac:(lia)) as Hk. unfold matches in Hk.
    destruct (truthy (active (dentry_at L d k))); cbn [negb andb] in *.
    + rewrite Hk. apply IH; [lia | | exact Hat]. intros i Hi. apply Hbefore. lia.
    + apply IH; [lia | | exact Hat]. intros i Hi. apply Hbefore. lia.
Qed.

Lemma lookup_loop_some (L : layout) (d : list pantryfs_dir_entry) (name : list Z)
    (n : nat) (k : Z) (e : pantryfs_dir_entry) :
  lookup_loop L d name n k = Some e ->
  exists j, k <= j < k + Z.of_nat n /\ e = dentry_at L d j
            /\ matches L name e = true
            /\ forall i, k <= i < j -> matches L name (dentry_at L d i) = false.
Proof.
  revert k. induction n as [| n IH]; intros k H; cbn [lookup_loop] in H;
    [discriminate |].
  destruct (truthy (active (dentry_at L d k))) eqn:Ha; cbn [negb] in H.
  - destruct (strncmp_eq (filename (dentry_at L d k)) name _) eqn:Hm.
    + injection H as <-. exists k. split; [lia |]. split; [reflexivity |].
      split; [unfold matches; rewrite Ha, Hm; reflexivity |]. intros i Hi. lia.
    + destruct (IH _ H) as (j & Hj & He & Hmj & Hb). exists j.
      split; [lia |]. split; [exact He |]. split; [exact Hmj |].
      intros i Hi. destruct (Z.eq_dec i k) as [-> | Hne].
      * unfold matches. rewrite Ha, Hm. reflexivity.
      * apply Hb. lia.
  - destruct (IH _ H) as (j & Hj & He & Hmj & Hb). exists j.
    split; [lia |]. split; [exact He |]. split; [exact Hmj |].
    intros i Hi. destruct (Z.eq_dec i k) as [-> | Hne].
    + unfold matches. rewrite Ha. reflexivity.
    + apply Hb. lia.
Qed.

Lemma lookup_loop_none_inv (L : layout) (d : list pantryfs_dir_entry) (name : list Z)
    (n : nat) (k : Z) :
  lookup_loop L d name n k = None ->
  forall i, k <= i < k + Z.of_nat n -> matches L name (dentry_at L d i) = false.
Proof.
  revert k. induction n as [| n IH]; intros k H i Hi; [lia |].
  cbn [lookup_loop] in H. unfold matches.
  destruct (Z.eq_dec i k) as [-> | Hne].
  - destruct (truthy (active (dentry_at L d k))); cbn [negb andb] in *;
      [| reflexivity].
    destruct (strncmp_eq _ _ _); [discriminate | reflexivity].
  - destruct (truthy (active (dentry_at L d k))); cbn [negb] in H.
    + destruct (strncmp_eq (filename (dentry_at L d k)) _ _); [discriminate |].
      apply (IH _ H). lia.
    + apply (IH _ H). lia.
Qed.

(** ** Directory blocks in the state *)

Lemma dir_view_set_dir_same (L : layout) (b : blocks) (n : Z)
    (l : list pantryfs_dir_entry) :
  dir_view L (set_dir b n l) n = l.
Proof. unfold dir_view, set_dir. cbn [b_dir]. rewrite lookup_insert_eq. reflexivity. Qed.

Lemma dir_view_set_dir_other (L : layout) (b : blocks) (n m : Z)
    (l : list pantryfs_dir_entry) :
  n <> m -> dir_view L (set_dir b n l) m = dir_view L b m.
Proof.
  intros H. unfold dir_view, set_dir. cbn [b_dir].
  rewrite lookup_insert_ne by exact H. reflexivity.
Qed.

(** ** A create that goes through *)

Section CreateSuccess.

Variable L : layout.
Variables (st : pfs) (parent : inode) (name : list Z) (mode_arg : Z)
          (excl : bool) (now : timespec64).

Let n := first_clear L (free_inodes (b_sb (buf st))).
Let d := first_clear L (free_data_blocks (b_sb (buf st))).
Let istore' := store_inode (b_istore (buf st)) (PFS_inode_from_istore n)
                 (created_record parent now d).
Let par_no := PFS_datablock_no_from_inode istore' parent.
Let dirb := dir_view L (buf st) par_no.
Let j := scan_from (fun i => negb (truthy (active (dentry_at L dirb i))))
           (Z.to_nat (PFS_MAX_CHILDREN L)) 0.
Let e := mkDentry n 1 (strncpy name (Z.to_nat (PANTRYFS_FILENAME_BUF_SIZE L))).
Let res := pantryfs_create L st parent name mode_arg excl now.

Hypothesis Hsb : sb_bread st PANTRYFS_SUPERBLOCK_DATABLOCK_NUMBER = true.
Hypothesis Hi : sb_bread st PANTRYFS_INODE_STORE_DATABLOCK_NUMBER = true.
Hypothesis Hn : n < PFS_MAX_INODES L.
Hypothesis Hd : d < PFS_MAX_INODES L.
Hypothesis Hp : sb_bread st par_no = true.
Hypothesis Hj : j < PFS_MAX_CHILDREN L.

Lemma create_success_state :
  res = (0, sync_dir L
              (with_buf (sync_istore
                 (with_buf (sync_sb
                    (with_buf st
                       (set_sb (buf st)
                          (mkSb (version (b_sb (buf st))) (magic (b_sb (buf st)))
                             (SETBIT (free_inodes (b_sb (buf st))) n)
                             (SETBIT (free_data_blocks (b_sb (buf st))) d)))))
                    (set_istore (buf st) istore')))
                 (set_dir (set_istore (set_sb (buf st)
                             (mkSb (version (b_sb (buf st))) (magic (b_sb (buf st)))
                                (SETBIT (free_inodes (b_sb (buf st))) n)
                                (SETBIT (free_data_blocks (b_sb (buf st))) d)))
                             istore')
                    par_no (<[PFS_dentry_from_dirblock j := e]> dirb)))
              par_no).
Proof.
  subst res. unfold pantryfs_create. rewrite Hsb. cbn [negb].
  fold n d.
  destruct (Z.eqb_spec n (PFS_MAX_INODES L)) as [Hn' | _]; [lia |].
  destruct (Z.eqb_spec d (PFS_MAX_INODES L)) as [Hd' | _]; [lia |].
  cbn [orb].
  change (sb_bread (sync_sb _) ?b) with (sb_bread st b).
  rewrite Hi. cbn [negb].
  change (sb_bread (sync_istore _) ?b) with (sb_bread st b).
  change (PFS_datablock_no_from_inode _ parent) with par_no.
  rewrite Hp. cbn [negb].
  change (dir_view L (buf (sync_istore _)) par_no) with dirb.
  fold j.
  destruct (Z.eqb_spec j (PFS_MAX_CHILDREN L)) as [Hj' | _]; [lia |].
  reflexivity.
Qed.

Lemma create_success_dir :
  fst res = 0
  /\ dir_view L (buf (snd res)) par_no = <[PFS_dentry_from_dirblock j := e]> dirb
  /\ dir_view L (dsk (snd res)) par_no = <[PFS_dentry_from_dirblock j := e]> dirb
  /\ bad (snd res) = bad st.
Proof.
  rewrite create_success_state. cbn [fst snd].
  unfold sync_dir, with_dsk, with_buf. cbn [buf dsk bad].
  rewrite !dir_view_set_dir_same. repeat split.
Qed.


Lemma create_success_sb_istore :
  b_sb (buf (snd res)) = mkSb (version (b_sb (buf st))) (magic (b_sb (buf st)))
                           (SETBIT (free_inodes (b_sb (buf st))) n)
                           (SETBIT (free_data_blocks (b_sb (buf st))) d)
  /\ b_sb (dsk (snd res)) = b_sb (buf (snd res))
  /\ b_istore (buf (snd res)) = istore'
  /\ b_istore (dsk (snd res)) = istore'.
Proof. rewrite create_success_state. repeat split. Qed.

Lemma sb_bread_after_create (b : Z) : sb_bread (snd res) b = sb_bread st b.
Proof. rewrite create_success_state. reflexivity. Qed.

(** X3.  A [create] that goes through keeps every bit that was set and
    moves both scans forward: the next [create] cannot pick the inode
    number or the data-block number just handed out. *)
Theorem X3_create_allocates_fresh_numbers :
  0 < sizeof_pantryfs_inode L ->
  (Z.to_nat (PFS_MAX_INODES L / 32) < length (free_inodes (b_sb (buf st))))%nat ->
  (Z.to_nat (PFS_MAX_INODES L / 32) < length (free_data_blocks (b_sb (buf st))))%nat ->
  n < first_clear L (free_inodes (b_sb (buf (snd res))))
  /\ d < first_clear L (free_data_blocks (b_sb (buf (snd res))))
  /\ (forall k, 0 <= k ->
        truthy (IS_SET (free_inodes (b_sb (buf st))) k) = true ->
        truthy (IS_SET (free_inodes (b_sb (buf (snd res)))) k) = true)
  /\ (forall k, 0 <= k ->
        truthy (IS_SET (free_data_blocks (b_sb (buf st))) k) = true ->
        truthy (IS_SET (free_data_blocks (b_sb (buf (snd res)))) k) = true).
Proof.
  intros Hs Hli Hld. pose proof (PFS_MAX_INODES_nonneg L Hs) as Hmax.
  destruct create_success_sb_istore as (-> & _ & _ & _). cbn [free_inodes free_data_blocks].
  destruct (first_clear_spec L (free_inodes (b_sb (buf st))) Hmax) as (Hbn & _ & _).
  destruct (first_clear_spec L (free_data_blocks (b_sb (buf st))) Hmax) as (Hbd & _ & _).
  fold n in Hbn. fold d in Hbd.
  assert (Hwn : (Z.to_nat (n / 32) < length (free_inodes (b_sb (buf st))))%nat).
  { eapply Nat.le_lt_trans; [| exact Hli].
    apply Z2Nat.inj_le; [apply Z.div_pos; lia | apply Z.div_pos; lia |].
    apply Z.div_le_mono; lia. }
  assert (Hwd : (Z.to_nat (d / 32) < length (free_data_blocks (b_sb (buf st))))%nat).
  { eapply Nat.le_lt_trans; [| exact Hld].
    apply Z2Nat.inj_le; [apply Z.div_pos; lia | apply Z.div_pos; lia |].
    apply Z.div_le_mono; lia. }
  split; [apply first_clear_after_SETBIT; assumption |].
  split; [apply first_clear_after_SETBIT; assumption |].
  split; intros k Hk Hset; rewrite truthy_IS_SET_SETBIT by (assumption || lia);
    rewrite Hset; apply orb_true_r.
Qed.


Lemma create_slot_bounds : 0 <= j.
Proof.
  pose proof (scan_from_bounds
                (fun i => negb (truthy (active (dentry_at L dirb i))))
                (Z.to_nat (PFS_MAX_CHILDREN L)) 0) as H.
  fold j in H. lia.
Qed.

Lemma pfs_inode_alloc_ok (cache : gmap Z (list inode)) (ino : Z)
    (r : pantryfs_inode) :
  exists i c, pfs_inode cache true ino r = Some (i, c).
Proof.
  unfold pfs_inode, iget_locked.
  destruct (find_inode_fast (hash_chain cache 0) 0) as [[k x] |].
  - destruct (negb (truthy (Z.land (i_state x) I_NEW))); eexists _, _; reflexivity.
  - destruct (negb (truthy (Z.land (i_state (fresh_inode 0)) I_NEW)));
      eexists _, _; reflexivity.
Qed.

(** X4.  Create then look up.  When the directory scan of [lookup] does
    not find the name in the parent's block before, and the block holds its
    [PFS_MAX_CHILDREN] slots, the directory scan of [lookup] run on the state [create] leaves
    returns the entry [create] wrote, with the new inode number; and
    [pantryfs_lookup] of a name within the length limit returns 0 and
    binds an inode. *)
Theorem X4_create_then_lookup_finds_entry :
  length dirb = Z.to_nat (PFS_MAX_CHILDREN L) ->
  lookup_loop L dirb name (Z.to_nat (PFS_MAX_CHILDREN L)) 0 = None ->
  lookup_loop L (dir_view L (buf (snd res)) par_no) name
    (Z.to_nat (PFS_MAX_CHILDREN L)) 0 = Some e
  /\ inode_no e = n
  /\ (Z.of_nat (length name) <= PANTRYFS_MAX_FILENAME_LENGTH L ->
      forall cache, exists i c,
        pantryfs_lookup L (snd res) cache true parent name = (0, Some i, c)).
Proof.
  intros Hlen Hnone.
  pose proof (lookup_loop_none_inv L dirb name _ 0 Hnone) as Habsent.
  destruct create_success_dir as (_ & Hdir & _).
  pose proof create_slot_bounds as Hj0.
  assert (Hat : dentry_at L (<[PFS_dentry_from_dirblock j := e]> dirb) j = e).
  { unfold dentry_at, PFS_dentry_from_dirblock.
    rewrite list_lookup_insert_eq by lia. reflexivity. }
  assert (Hfound : lookup_loop L (dir_view L (buf (snd res)) par_no) name
                     (Z.to_nat (PFS_MAX_CHILDREN L)) 0 = Some e).
  { rewrite Hdir. rewrite <- Hat at 2.
    apply lookup_loop_first.
    - lia.
    - intros i Hrange. unfold dentry_at, PFS_dentry_from_dirblock.
      rewrite list_lookup_insert_ne by lia. apply Habsent. lia.
    - rewrite Hat. unfold matches, e. cbn [active filename].
      rewrite strncmp_eq_strncpy. reflexivity. }
  split; [exact Hfound |]. split; [reflexivity |].
  intros Hname cache. unfold pantryfs_lookup.
  destruct (Z.gtb_spec (Z.of_nat (length name)) (PANTRYFS_MAX_FILENAME_LENGTH L));
    [lia |].
  destruct create_success_sb_istore as (_ & _ & -> & _).
  fold par_no. rewrite !sb_bread_after_create, Hi, Hp. cbn [negb].
  rewrite Hfound.
  destruct (pfs_inode_alloc_ok cache (inode_no e)
              (load_inode istore' (PFS_inode_from_istore (inode_no e))))
    as (i & c & ->).
  exists i, c. reflexivity.
Qed.


(** X7.  A [create] that goes through leaves nothing unsynced: the
    superblock, the inode store and the parent's block read the same on
    the device as in the buffer cache. *)
Theorem X7_create_persists_what_it_writes :
  b_sb (dsk (snd res)) = b_sb (buf (snd res))
  /\ b_istore (dsk (snd res)) = b_istore (buf (snd res))
  /\ dir_view L (dsk (snd res)) par_no = dir_view L (buf (snd res)) par_no.
Proof.
  destruct create_success_dir as (_ & Hb & Hdk & _).
  destruct create_success_sb_istore as (_ & Hsb' & Hi1 & Hi2).
  split; [exact Hsb' |]. split; congruence.
Qed.

End CreateSuccess.

Lemma X3_create_allocates_fresh_numbers_witness :
  first_clear layout64 (free_inodes (b_sb (buf (img 1)))) = 2
  /\ 2 < first_clear layout64 (free_inodes (b_sb (buf img_created)))
  /\ 2 < first_clear layout64 (free_data_blocks (b_sb (buf img_created))).
Proof.
  split; [reflexivity |].
  destruct (X3_create_allocates_fresh_numbers layout64 (img 1) root_inode name_a
              33188 false (mkTime 5 0)) as (H1 & H2 & _);
    [reflexivity | reflexivity | vm_compute; reflexivity | vm_compute; reflexivity
     | reflexivity | vm_compute; reflexivity | reflexivity
     | vm_compute; lia | vm_compute; lia |].
  split; [exact H1 | exact H2].
Defined.

Lemma X4_create_then_lookup_finds_entry_witness :
  lookup_loop layout64 (dir_view layout64 (buf (img 1)) 2) name_a 16 0 = None
  /\ lookup_loop layout64 (dir_view layout64 (buf img_created) 2) name_a 16 0
     = Some (mkDentry 2 1 (strncpy name_a 247))
  /\ exists i c,
       pantryfs_lookup layout64 img_created ∅ true root_inode name_a
       = (0, Some i, c).
Proof.
  split; [vm_compute; reflexivity |].
  destruct (X4_create_then_lookup_finds_entry layout64 (img 1) root_inode name_a
              33188 false (mkTime 5 0)) as (H1 & _ & H2);
    [reflexivity | reflexivity | vm_compute; reflexivity | vm_compute; reflexivity
     | reflexivity | vm_compute; reflexivity | reflexivity
     | vm_compute; reflexivity |].
  split; [exact H1 |].
  apply H2. vm_compute. discriminate.
Defined.


Lemma X7_create_persists_what_it_writes_witness :
  b_sb (dsk img_created) = b_sb (buf img_created)
  /\ b_istore (dsk img_created) = b_istore (buf img_created)
  /\ dir_view layout64 (dsk img_created) 2 = dir_view layout64 (buf img_created) 2.
Proof.
  apply (X7_create_persists_what_it_writes layout64 (img 1) root_inode name_a
           33188 false (mkTime 5 0));
    [reflexivity | reflexivity | vm_compute; reflexivity | vm_compute; reflexivity
     | reflexivity | vm_compute; reflexivity].
Defined.




Lemma PFS_MAX_CHILDREN_nonneg (L : layout) :
  0 < sizeof_pantryfs_dir_entry L -> 0 <= PFS_MAX_CHILDREN L.
Proof. intros H. unfold PFS_MAX_CHILDREN, PFS_BLOCK_SIZE. apply Z.div_pos; lia. Qed.


(** ** pantryfs_unlink *)

Section Unlink.

Variable L : layout.
Variable alias : Z -> list pantryfs_dir_entry -> list pantryfs_dir_entry.
Variables (st : pfs) (dir : inode) (name : list Z) (di : inode).

Let dir_no := PFS_datablock_no_from_inode (b_istore (buf st)) dir.
Let dirb := dir_view L (buf st) dir_no.
Let i := scan_from (fun i => strcmp_eq (filename (dentry_at L dirb i)) name)
           (Z.to_nat (PFS_MAX_CHILDREN L)) 0.
Let res := pantryfs_unlink L alias st dir name di.

(** X8.  An [unlink] that fails before it writes changes nothing: it
    returns [-EIO] when the inode store or the directory block cannot be
    read and [-EFAULT] when no slot of the directory block holds the name,
    and in each case the state and the inode are as they were. *)
Theorem X8_unlink_failure_changes_nothing :
  0 < sizeof_pantryfs_dir_entry L ->
  (sb_bread st PANTRYFS_INODE_STORE_DATABLOCK_NUMBER = false ->
   res = (- EIO, st, di))
  /\ (sb_bread st PANTRYFS_INODE_STORE_DATABLOCK_NUMBER = true ->
      sb_bread st dir_no = false -> res = (- EIO, st, di))
  /\ (sb_bread st PANTRYFS_INODE_STORE_DATABLOCK_NUMBER = true ->
      sb_bread st dir_no = true ->
      (forall k, 0 <= k < PFS_MAX_CHILDREN L ->
                 strcmp_eq (filename (dentry_at L dirb k)) name = false) ->
      res = (- EFAULT, st, di)).
Proof.
  intros Hs. pose proof (PFS_MAX_CHILDREN_nonneg L Hs) as Hmax.
  subst res. unfold pantryfs_unlink. fold dir_no. fold dirb.
  split; [intros ->; reflexivity |].
  split; [intros -> ->; reflexivity |].
  intros -> -> Hnone. cbn [negb]. fold i.
  assert (Hi : i = PFS_MAX_CHILDREN L).
  { subst i. rewrite scan_from_none; [lia |].
    intros k Hk. apply Hnone. lia. }
  rewrite Hi, Z.eqb_refl. reflexivity.
Qed.

Hypothesis Hist : sb_bread st PANTRYFS_INODE_STORE_DATABLOCK_NUMBER = true.
Hypothesis Hdir : sb_bread st dir_no = true.
Hypothesis Hfound : i < PFS_MAX_CHILDREN L.




End Unlink.


Lemma X8_unlink_failure_changes_nothing_witness :
  pantryfs_unlink layout64 alias_unseen (img 1) root_inode name_a (hello_inode 1)
  = (- EFAULT, img 1, hello_inode 1).
Proof.
  destruct (X8_unlink_failure_changes_nothing layout64 alias_unseen (img 1)
              root_inode name_a (hello_inode 1)) as (_ & _ & H); [reflexivity |].
  apply H; [reflexivity | reflexivity |].
  intros k Hk.
  apply (scan_from_before
           (fun i => strcmp_eq
                       (filename (dentry_at layout64
                                    (dir_view layout64 (buf (img 1)) 2) i)) name_a)
           16 0).
  vm_compute. vm_compute in Hk. exact Hk.
Defined.


(** ** pantryfs_write_inode *)


Lemma write_inode_state (st : pfs) (i : inode) :
  sb_bread st PANTRYFS_INODE_STORE_DATABLOCK_NUMBER = true ->
  let p := PFS_inode_from_istore (i_ino i) in
  let r := record_of_inode i
             (data_block_number (load_inode (b_istore (buf st)) p)) in
  pantryfs_write_inode st i
  = (0, sync_istore (with_buf st (set_istore (buf st)
                                    (store_inode (b_istore (buf st)) p r)))).
Proof. intros Hr p r. unfold pantryfs_write_inode. rewrite Hr. reflexivity. Qed.


Lemma u16_small (x : Z) : 0 <= x < 2 ^ 16 -> u16 x = x.
Proof. intros H. unfold u16. apply Z.mod_small. exact H. Qed.

(** X11.  Write-back then materialise.  After [pantryfs_write_inode] on a
    regular file other than the root, the record of its inode on the
    device, given to the code that fills a new in-memory inode, yields the
    same number, link count, owner, group and timestamps, and the file
    operations; the data block number of the record is the one it had;
    the mode and the size come back narrowed to [umode_t] and [loff_t],
    which is the mode and the size of the inode itself, these being values
    of those types. *)
Theorem X11_write_inode_then_fill_inode (st : pfs) (i i0 : inode) :
  sb_bread st PANTRYFS_INODE_STORE_DATABLOCK_NUMBER = true ->
  2 <= i_ino i <= Z.of_nat (length (b_istore (buf st))) ->
  Z.land (i_mode i) S_IFDIR = 0 ->
  let p := PFS_inode_from_istore (i_ino i) in
  let res := pantryfs_write_inode st i in
  let r := load_inode (b_istore (dsk (snd res))) p in
  let i' := fill_inode i0 (i_ino i) r in
  fst res = 0
  /\ data_block_number r = data_block_number (load_inode (b_istore (buf st)) p)
  /\ i_ino i' = i_ino i /\ i_mode i' = u16 (i_mode i) /\ i_nlink i' = i_nlink i
  /\ i_uid i' = i_uid i /\ i_gid i' = i_gid i
  /\ vi_atime i' = vi_atime i /\ vi_mtime i' = vi_mtime i /\ vi_ctime i' = vi_ctime i
  /\ i_size i' = s64 (i_size i) /\ i_fop i' = pantryfs_file_ops
  /\ (0 <= i_mode i < 2 ^ 16 -> i_mode i' = i_mode i)
  /\ (- 2 ^ 63 <= i_size i < 2 ^ 63 -> i_size i' = i_size i).
Proof.
  intros Hr Hino Hreg p res r i'.
  subst i' r res. rewrite (write_inode_state st i Hr). cbn [fst snd].
  unfold sync_istore, with_dsk, with_buf, set_istore. cbn [dsk buf b_istore].
  subst p. rewrite PFS_inode_from_istore_pos by lia.
  rewrite load_store_inode by lia.
  unfold fill_inode, record_of_inode. cbn [mode nlink uid gid i_atime i_mtime i_ctime file_size
                          data_block_number].
  unfold PANTRYFS_ROOT_INODE_NUMBER.
  destruct (Z.eqb_spec (i_ino i) 1) as [H1 | _]; [lia |].
  rewrite Hreg.
  cbn [truthy Z.eqb negb orb i_ino i_mode i_nlink i_uid i_gid vi_atime vi_mtime
       vi_ctime i_size i_fop fst].
  do 12 (split; [reflexivity |]).
  split; [apply u16_small | apply s64_small].
Qed.

Lemma X11_write_inode_then_fill_inode_witness :
  let i := set_i_size (hello_inode 1) 40 in
  let res := pantryfs_write_inode (img 1) i in
  let i' := fill_inode (fresh_inode 0) 2
              (load_inode (b_istore (dsk (snd res))) (PFS_inode_from_istore 2)) in
  fst res = 0 /\ i_size i' = 40 /\ i_mode i' = i_mode i.
Proof.
  destruct (X11_write_inode_then_fill_inode (img 1)
              (set_i_size (hello_inode 1) 40) (fresh_inode 0))
    as (H1 & _ & _ & _ & _ & _ & _ & _ & _ & _ & _ & _ & H2 & H3);
    [reflexivity | vm_compute; split; discriminate | reflexivity |].
  cbv zeta. split; [exact H1 |].
  split; [apply H3 | apply H2]; vm_compute; split; (discriminate || reflexivity).
Defined.



(** ** Bytes of a data block *)

Section CopyInto.

Variables (blk src : list Z) (off amt : Z).
Hypothesis Hoff : 0 <= off.
Hypothesis Hamt : 0 <= amt.
Hypothesis Hfit : off + amt <= Z.of_nat (length blk).
Hypothesis Hsrc : amt <= Z.of_nat (length src).

Lemma copy_into_length : length (copy_into blk off amt src) = length blk.
Proof.
  unfold copy_into. rewrite !length_app, !length_take, length_drop. lia.
Qed.

Lemma copy_into_read_back :
  take (Z.to_nat amt) (drop (Z.to_nat off) (copy_into blk off amt src))
  = take (Z.to_nat amt) src.
Proof.
  unfold copy_into.
  rewrite drop_app_ge by (rewrite length_take; lia).
  rewrite length_take.
  replace (Z.to_nat off - Z.to_nat off `min` length blk)%nat with 0%nat by lia.
  rewrite drop_0.
  apply take_app_length'. rewrite length_take. lia.
Qed.

Lemma copy_into_outside (k : nat) :
  (Z.of_nat k < off \/ off + amt <= Z.of_nat k) ->
  copy_into blk off amt src !! k = blk !! k.
Proof.
  intros Hk. unfold copy_into.
  destruct Hk as [Hlt | Hge].
  - rewrite lookup_app_l by (rewrite length_take; lia).
    apply lookup_take_lt. lia.
  - rewrite lookup_app_r by (rewrite length_take; lia).
    rewrite lookup_app_r by (rewrite !length_take; lia).
    rewrite lookup_drop. f_equal. rewrite !length_take. lia.
Qed.

End CopyInto.

(** A copy that leaves nothing is the copy of the bytes asked for. *)
Lemma copy_from_user_complete (blk src : list Z) (off n : Z) :
  copy_from_user blk off n src 0 = copy_into blk off n src.
Proof.
  unfold copy_from_user, copy_into. cbn [Z.to_nat replicate].
  rewrite app_nil_r, Z.sub_0_r, take_take, Nat.min_id. reflexivity.
Qed.

(** A copy that leaves [left] bytes: the bytes before the fault come from
    the user, the [left] bytes behind them are zero, the rest of the block
    is as it was. *)
Section CopyPartial.

Variables (blk src : list Z) (off n left : Z).
Hypothesis Hoff : 0 <= off.
Hypothesis Hleft : 0 <= left <= n.
Hypothesis Hfit : off + n <= Z.of_nat (length blk).
Hypothesis Hsrc : n - left <= Z.of_nat (length src).

Let src' := take (Z.to_nat (n - left)) src ++ replicate (Z.to_nat left) 0.

Lemma copy_partial_src_length : Z.of_nat (length src') = n.
Proof. subst src'. rewrite length_app, length_take, length_replicate. lia. Qed.

Lemma copy_partial_length : length (copy_from_user blk off n src left) = length blk.
Proof.
  pose proof copy_partial_src_length.
  unfold copy_from_user. fold src'. apply copy_into_length; lia.
Qed.

Lemma copy_partial_window :
  take (Z.to_nat n) (drop (Z.to_nat off) (copy_from_user blk off n src left)) = src'.
Proof.
  pose proof copy_partial_src_length as Hl.
  unfold copy_from_user. fold src'.
  rewrite copy_into_read_back by lia.
  apply take_ge. lia.
Qed.

Lemma copy_partial_copied :
  take (Z.to_nat (n - left))
       (drop (Z.to_nat off) (copy_from_user blk off n src left))
  = take (Z.to_nat (n - left)) src.
Proof.
  replace (Z.to_nat (n - left)) with (Z.to_nat (n - left) `min` Z.to_nat n)%nat at 1
    by lia.
  rewrite <- take_take, copy_partial_window. subst src'.
  apply take_app_length'. rewrite length_take. lia.
Qed.

Lemma copy_partial_zeroed :
  take (Z.to_nat left)
       (drop (Z.to_nat (off + (n - left))) (copy_from_user blk off n src left))
  = replicate (Z.to_nat left) 0.
Proof.
  replace (Z.to_nat (off + (n - left)))
    with (Z.to_nat off + Z.to_nat (n - left))%nat by lia.
  rewrite <- drop_drop, take_drop_commute.
  replace (Z.to_nat (n - left) + Z.to_nat left)%nat with (Z.to_nat n) by lia.
  rewrite copy_partial_window. subst src'.
  apply drop_app_length'. rewrite length_take. lia.
Qed.

Lemma copy_partial_outside (k : nat) :
  (Z.of_nat k < off \/ off + n <= Z.of_nat k) ->
  copy_from_user blk off n src left !! k = blk !! k.
Proof.
  pose proof copy_partial_src_length.
  intros Hk. unfold copy_from_user. fold src'. apply copy_into_outside; lia.
Qed.

End CopyPartial.

(** ** pantryfs_write and pantryfs_read together *)

Lemma data_view_set_data_same (b : blocks) (n : Z) (l : list Z) :
  data_view (set_data b n l) n = l.
Proof. unfold data_view, set_data. cbn [b_data]. rewrite lookup_insert_eq. reflexivity. Qed.

Lemma data_view_set_data_other (b : blocks) (n m : Z) (l : list Z) :
  n <> m -> data_view (set_data b n l) m = data_view b m.
Proof.
  intros H. unfold data_view, set_data. cbn [b_data].
  rewrite lookup_insert_ne by exact H. reflexivity.
Qed.

Lemma same_block_set_data (b : blocks) (n m : Z) (l : list Z) :
  m <> n -> same_block b (set_data b n l) m.
Proof.
  intros H. unfold same_block, set_data. cbn [b_sb b_istore b_dir b_data].
  rewrite lookup_insert_ne by congruence. repeat split.
Qed.

Section WriteSuccess.

Variables (st : pfs) (i : inode) (f_flags : Z) (ubuf : list Z) (len ppos : Z).

Let off := if truthy (Z.land f_flags O_APPEND) then i_size i else ppos.
Let n := Z.min len (PFS_BLOCK_SIZE - off).
Let db_no := PFS_datablock_no_from_inode (b_istore (buf st)) i.
Let res := pantryfs_write st i f_flags ubuf len ppos 0.

Hypothesis Hpos : 0 <= ppos <= i_size i.
Hypothesis Hsize : i_size i <= PFS_BLOCK_SIZE.
Hypothesis Hlen : 0 <= len.
Hypothesis Hsum : len + i_size i < 2 ^ 64.
Hypothesis Hist : sb_bread st PANTRYFS_INODE_STORE_DATABLOCK_NUMBER = true.
Hypothesis Hblk : sb_bread st db_no = true.

Lemma write_off_bounds : ppos <= off <= i_size i.
Proof. subst off. destruct (truthy _); lia. Qed.

Lemma write_count_bounds : 0 <= n <= len /\ off + n <= PFS_BLOCK_SIZE.
Proof. pose proof write_off_bounds. subst n. lia. Qed.

(** The count the source computes is [n]. *)
Lemma write_amt_is_n : write_amt len off = n /\ s64 n = n /\ s64 (off + n) = off + n.
Proof.
  pose proof write_off_bounds as Ho. pose proof write_count_bounds as Hn.
  pose proof (eq_refl : PFS_BLOCK_SIZE = 4096) as HB.
  assert (H63 : 4096 < 2 ^ 63) by reflexivity.
  rewrite write_amt_read_amt, read_amt_in_block by lia. fold n.
  split; [reflexivity |]. split; apply s64_small; lia.
Qed.

Lemma write_success_state :
  res = (n,
         with_buf st (set_data (buf st) db_no
                        (copy_into (data_view (buf st) db_no) off n ubuf)),
         (if off + n >? i_size i
          then mark_inode_dirty (set_i_size i (off + n)) else i),
         off + n).
Proof.
  pose proof write_off_bounds as Ho.
  destruct write_amt_is_n as (Ha & Hs1 & Hs2).
  subst res. unfold pantryfs_write.
  destruct (Z.gtb_spec ppos (i_size i)) as [Hgt | _]; [lia |].
  fold off. rewrite Hist. fold db_no. rewrite Hblk. cbn [negb].
  rewrite Ha, nothing_left. cbn [negb Z.eqb].
  rewrite copy_from_user_complete, Hs1, Hs2. reflexivity.
Qed.

(** X13.  Write then read.  A write that goes through on a file whose
    size is within the block, from a user buffer that holds the bytes,
    followed by a read with the same length at the offset the write used,
    returns the count the write returned and exactly the bytes written. *)
Theorem X13_write_then_read_returns_bytes :
  length (data_view (buf st) db_no) = Z.to_nat PFS_BLOCK_SIZE ->
  n <= Z.of_nat (length ubuf) ->
  let st' := snd (fst (fst res)) in
  let i' := snd (fst res) in
  fst (fst (fst res)) = n
  /\ snd res = off + n
  /\ pantryfs_read st' i' len off true = (n, off + n, take (Z.to_nat n) ubuf).
Proof.
  intros Hlenb Hsrc st' i'. subst st' i'. rewrite write_success_state.
  cbn [fst snd].
  pose proof write_off_bounds as Ho. pose proof write_count_bounds as Hn.
  split; [reflexivity |]. split; [reflexivity |].
  set (st1 := with_buf st _).
  set (i1 := if off + n >? i_size i then _ else i).
  assert (Hino : i_ino i1 = i_ino i) by (subst i1; destruct (_ >? _); reflexivity).
  assert (Hdb : PFS_datablock_no_from_inode (b_istore (buf st1)) i1 = db_no).
  { subst st1 db_no. unfold PFS_datablock_no_from_inode. rewrite Hino. reflexivity. }
  pose proof (eq_refl : PFS_BLOCK_SIZE = 4096) as HB.
  assert (H63 : 4096 < 2 ^ 63) by reflexivity.
  destruct (Z.eq_dec off PFS_BLOCK_SIZE) as [Heq | Hne].
  - assert (Hn0 : n = 0) by lia.
    unfold pantryfs_read. rewrite Heq, Z.eqb_refl, Hn0, Z.add_0_r. reflexivity.
  - unfold pantryfs_read.
    destruct (Z.eqb_spec off PFS_BLOCK_SIZE) as [Heq | _]; [contradiction |].
    destruct (Z.gtb_spec off PFS_BLOCK_SIZE) as [Hgt | _]; [lia |].
    change (sb_bread st1 ?b) with (sb_bread st b).
    rewrite Hist, Hdb, Hblk. cbn [negb].
    destruct (clip_count len off) as [Hc1 Hc2]; [lia | lia | lia |].
    rewrite Hc1, Hc2, read_amt_in_block by lia.
    fold n. f_equal.
    subst st1. unfold with_buf. cbn [buf]. rewrite data_view_set_data_same.
    apply copy_into_read_back; lia.
Qed.

(** X14.  What a write that goes through changes: in the buffer cache the
    bytes from the offset up to the offset plus the count of the file's
    block, and nothing else -- that block keeps its length and every byte
    of it outside the range, every block other than the file's block reads
    as before through whichever type it is read, nothing is written to the
    device -- and the inode keeps its number and never gets a size beyond
    the block. *)
Theorem X14_write_frame :
  length (data_view (buf st) db_no) = Z.to_nat PFS_BLOCK_SIZE ->
  n <= Z.of_nat (length ubuf) ->
  let st' := snd (fst (fst res)) in
  let i' := snd (fst res) in
  length (data_view (buf st') db_no) = Z.to_nat PFS_BLOCK_SIZE
  /\ (forall k : nat, Z.of_nat k < off \/ off + n <= Z.of_nat k ->
        data_view (buf st') db_no !! k = data_view (buf st) db_no !! k)
  /\ (forall m, m <> db_no -> same_block (buf st) (buf st') m)
  /\ dsk st' = dsk st
  /\ i_ino i' = i_ino i
  /\ i_size i' = Z.max (i_size i) (off + n)
  /\ i_size i' <= PFS_BLOCK_SIZE.
Proof.
  intros Hlenb Hsrc st' i'. subst st' i'. rewrite write_success_state.
  cbn [fst snd].
  pose proof write_off_bounds as Ho. pose proof write_count_bounds as Hn.
  pose proof (eq_refl : PFS_BLOCK_SIZE = 4096) as HB.
  unfold with_buf. cbn [buf dsk]. rewrite data_view_set_data_same.
  split; [rewrite copy_into_length by lia; exact Hlenb |].
  split; [intros k Hk; apply copy_into_outside; lia |].
  split; [intros m Hm; apply same_block_set_data; exact Hm |].
  split; [reflexivity |].
  destruct (Z.gtb_spec (off + n) (i_size i)); cbn [i_ino i_size mark_inode_dirty set_i_size];
    repeat split; lia.
Qed.

(** A copy from the user that stops [uncopied] bytes short. *)
Lemma write_fault_effect (uncopied : Z) :
  0 < uncopied <= n ->
  length (data_view (buf st) db_no) = Z.to_nat PFS_BLOCK_SIZE ->
  n - uncopied <= Z.of_nat (length ubuf) ->
  let r := pantryfs_write st i f_flags ubuf len ppos uncopied in
  let st' := snd (fst (fst r)) in
  fst (fst (fst r)) = - EFAULT /\ snd (fst r) = i /\ snd r = off
  /\ dsk st' = dsk st
  /\ length (data_view (buf st') db_no) = Z.to_nat PFS_BLOCK_SIZE
  /\ take (Z.to_nat (n - uncopied)) (drop (Z.to_nat off) (data_view (buf st') db_no))
     = take (Z.to_nat (n - uncopied)) ubuf
  /\ take (Z.to_nat uncopied)
          (drop (Z.to_nat (off + (n - uncopied))) (data_view (buf st') db_no))
     = replicate (Z.to_nat uncopied) 0
  /\ (forall k : nat, Z.of_nat k < off \/ off + n <= Z.of_nat k ->
        data_view (buf st') db_no !! k = data_view (buf st) db_no !! k)
  /\ (forall m, m <> db_no -> same_block (buf st) (buf st') m).
Proof.
  intros Hu Hlenb Hsrc r st'. subst st' r.
  pose proof write_off_bounds as Ho. pose proof write_count_bounds as Hn.
  pose proof (eq_refl : PFS_BLOCK_SIZE = 4096) as HB.
  destruct write_amt_is_n as (Ha & _ & _).
  unfold pantryfs_write.
  destruct (Z.gtb_spec ppos (i_size i)) as [Hgt | _]; [lia |].
  fold off. rewrite Hist. fold db_no. rewrite Hblk. cbn [negb].
  rewrite Ha. replace (Z.max 0 (Z.min uncopied n)) with uncopied by lia.
  destruct (Z.eqb_spec uncopied 0) as [H0 | _]; [lia |].
  cbn [negb fst snd]. unfold with_buf. cbn [buf dsk].
  rewrite data_view_set_data_same.
  do 4 (split; [reflexivity |]).
  split; [rewrite copy_partial_length by lia; exact Hlenb |].
  split; [apply copy_partial_copied; lia |].
  split; [apply copy_partial_zeroed; lia |].
  split; [intros k Hk; apply copy_partial_outside; lia |].
  intros m Hm. apply same_block_set_data. exact Hm.
Qed.

End WriteSuccess.

Lemma X13_write_then_read_returns_bytes_witness :
  let res := pantryfs_write (img 1) (hello_inode 1) 0 (replicate 20 65) 20 12 0 in
  fst (fst (fst res)) = 20
  /\ pantryfs_read (snd (fst (fst res))) (snd (fst res)) 20 12 true
     = (20, 32, replicate 20 65).
Proof.
  destruct (X13_write_then_read_returns_bytes (img 1) (hello_inode 1) 0
              (replicate 20 65) 20 12) as (H1 & _ & H2);
    [vm_compute; split; discriminate | vm_compute; discriminate | lia
     | vm_compute; reflexivity | reflexivity | reflexivity | reflexivity
     | vm_compute; discriminate |].
  cbv zeta. split; [exact H1 |]. exact H2.
Defined.

Lemma X14_write_frame_witness :
  let res := pantryfs_write (img 1) (hello_inode 1) 0 (replicate 20 65) 20 12 0 in
  data_view (buf (snd (fst (fst res)))) 3 !! 11%nat = Some 10
  /\ data_view (buf (snd (fst (fst res)))) 3 !! 32%nat = Some 0
  /\ same_block (buf (img 1)) (buf (snd (fst (fst res)))) 2
  /\ i_size (snd (fst res)) = 32.
Proof.
  destruct (X14_write_frame (img 1) (hello_inode 1) 0
              (replicate 20 65) 20 12) as (_ & H1 & H3 & _ & _ & H2 & _);
    [vm_compute; split; discriminate | vm_compute; discriminate | lia
     | vm_compute; reflexivity | reflexivity | reflexivity | reflexivity
     | vm_compute; discriminate |].
  cbv zeta. split; [| split; [| split]].
  - etransitivity; [apply (H1 11%nat); left; vm_compute; reflexivity |].
    vm_compute. reflexivity.
  - etransitivity; [apply (H1 32%nat); right; vm_compute; discriminate |].
    vm_compute. reflexivity.
  - apply H3. vm_compute. discriminate.
  - exact H2.
Defined.

(** The [-EIO] exits of [pantryfs_write]: nothing has been written. *)
Lemma write_io_error_exits (st : pfs) (i : inode) (f_flags : Z)
    (ubuf : list Z) (len ppos : Z) (uncopied : Z) :
  ppos <= i_size i ->
  let off := if truthy (Z.land f_flags O_APPEND) then i_size i else ppos in
  let db_no := PFS_datablock_no_from_inode (b_istore (buf st)) i in
  let res := pantryfs_write st i f_flags ubuf len ppos uncopied in
  (sb_bread st PANTRYFS_INODE_STORE_DATABLOCK_NUMBER = false ->
   res = (- EIO, st, i, off))
  /\ (sb_bread st PANTRYFS_INODE_STORE_DATABLOCK_NUMBER = true ->
      sb_bread st db_no = false -> res = (- EIO, st, i, off)).
Proof.
  intros Hp off db_no res. subst res. unfold pantryfs_write.
  destruct (Z.gtb_spec ppos (i_size i)) as [Hgt | _]; [lia |].
  fold off. fold db_no.
  split; [intros ->; reflexivity |].
  intros -> ->; reflexivity.
Qed.

(** X15.  [pantryfs_write] never shrinks a file and never changes the
    inode number: whatever the arguments and the outcome, the size of the
    inode it leaves is at least the size it found. *)
Theorem X15_write_never_shrinks (st : pfs) (i : inode) (f_flags : Z)
    (ubuf : list Z) (len ppos : Z) (uncopied : Z) :
  let i' := snd (fst (pantryfs_write st i f_flags ubuf len ppos uncopied)) in
  i_size i <= i_size i' /\ i_ino i' = i_ino i.
Proof.
  unfold pantryfs_write.
  repeat match goal with
         | |- context [if ?c then (_, _, _, _) else _] => destruct c
         end; cbn [fst snd]; try (split; [lia | reflexivity]).
  match goal with
  | |- context [?a >? ?b] => destruct (Z.gtb_spec a b)
  end; cbn [i_size i_ino mark_inode_dirty set_i_size]; split; (lia || reflexivity).
Qed.

(** X16.  The error exits of [pantryfs_write] past the range check.  When
    the inode store or the data block cannot be read the call returns
    [-EIO] and leaves the state and the inode as they were.  When the copy
    from the user stops [uncopied] bytes short, the call returns [-EFAULT]
    and leaves the inode and the device as they were, but the block in the
    buffer cache has been written: the bytes copied before the fault are
    in place from the offset on, the [uncopied] bytes behind them are
    zero, and the rest of the block and every other block are as before.
    In each case the offset handed back is the one the call would have
    written at: in append mode it has already been moved to the size of
    the file. *)
Theorem X16_write_error_exits (st : pfs) (i : inode) (f_flags : Z)
    (ubuf : list Z) (len ppos : Z) (uncopied : Z) :
  ppos <= i_size i ->
  let off := if truthy (Z.land f_flags O_APPEND) then i_size i else ppos in
  let db_no := PFS_datablock_no_from_inode (b_istore (buf st)) i in
  let res := pantryfs_write st i f_flags ubuf len ppos uncopied in
  (sb_bread st PANTRYFS_INODE_STORE_DATABLOCK_NUMBER = false ->
   res = (- EIO, st, i, off))
  /\ (sb_bread st PANTRYFS_INODE_STORE_DATABLOCK_NUMBER = true ->
      sb_bread st db_no = false -> res = (- EIO, st, i, off))
  /\ (sb_bread st PANTRYFS_INODE_STORE_DATABLOCK_NUMBER = true ->
      sb_bread st db_no = true ->
      0 <= ppos -> i_size i <= PFS_BLOCK_SIZE -> 0 <= len ->
      len + i_size i < 2 ^ 64 ->
      let n := Z.min len (PFS_BLOCK_SIZE - off) in
      0 < uncopied <= n ->
      length (data_view (buf st) db_no) = Z.to_nat PFS_BLOCK_SIZE ->
      n - uncopied <= Z.of_nat (length ubuf) ->
      let st' := snd (fst (fst res)) in
      fst (fst (fst res)) = - EFAULT /\ snd (fst res) = i /\ snd res = off
      /\ dsk st' = dsk st
      /\ length (data_view (buf st') db_no) = Z.to_nat PFS_BLOCK_SIZE
      /\ take (Z.to_nat (n - uncopied))
              (drop (Z.to_nat off) (data_view (buf st') db_no))
         = take (Z.to_nat (n - uncopied)) ubuf
      /\ take (Z.to_nat uncopied)
              (drop (Z.to_nat (off + (n - uncopied))) (data_view (buf st') db_no))
         = replicate (Z.to_nat uncopied) 0
      /\ (forall k : nat, Z.of_nat k < off \/ off + n <= Z.of_nat k ->
            data_view (buf st') db_no !! k = data_view (buf st) db_no !! k)
      /\ (forall m, m <> db_no -> same_block (buf st) (buf st') m)).
Proof.
  intros Hp off db_no res.
  destruct (write_io_error_exits st i f_flags ubuf len ppos uncopied Hp) as [H1 H2].
  split; [exact H1 |]. split; [exact H2 |].
  intros Hi Hb Hp0 Hsz Hlen Hsum n Hu Hlenb Hsrc.
  apply (write_fault_effect st i f_flags ubuf len ppos); try assumption. lia.
Qed.

Lemma X16_write_error_exits_witness :
  let r := pantryfs_write (img 1) (hello_inode 1) 0 (replicate 12 65) 12 0 8 in
  fst (fst (fst r)) = - EFAULT
  /\ snd (fst r) = hello_inode 1
  /\ take 4 (data_view (buf (snd (fst (fst r)))) 3) = replicate 4 65
  /\ take 8 (drop 4 (data_view (buf (snd (fst (fst r)))) 3)) = replicate 8 0
  /\ take 12 (data_view (buf (img 1)) 3)
     = [72; 101; 108; 108; 111; 32; 119; 111; 114; 108; 100; 10].
Proof.
  destruct (X16_write_error_exits (img 1) (hello_inode 1) 0 (replicate 12 65) 12 0 8)
    as (_ & _ & H); [vm_compute; discriminate |].
  destruct H as (H1 & H2 & _ & _ & _ & H3 & H4 & _);
    [reflexivity | reflexivity | lia | vm_compute; discriminate | lia
     | vm_compute; reflexivity | vm_compute; split; [reflexivity | discriminate]
     | reflexivity | vm_compute; discriminate |].
  cbv zeta. split; [exact H1 |]. split; [exact H2 |].
  split; [exact H3 |]. split; [exact H4 |]. vm_compute. reflexivity.
Defined.

(** ** pantryfs_read *)

(** X17.  [pantryfs_read] never consults the size of the file: two inodes
    with the same number read the same, and a read of a positive length at
    the end of a file shorter than the block is not an end of file -- it
    returns [min len (4096 - size)] > 0 bytes of the block.  Its error
    exits hand the offset back unchanged. *)
Theorem X17_read_ignores_file_size (st : pfs) (i i' : inode) (len ppos : Z)
    (user_ok : bool) :
  i_ino i = i_ino i' ->
  let db_no := PFS_datablock_no_from_inode (b_istore (buf st)) i in
  pantryfs_read st i len ppos user_ok = pantryfs_read st i' len ppos user_ok
  /\ (0 <= i_size i < PFS_BLOCK_SIZE -> 0 < len -> len + i_size i < 2 ^ 64 ->
      sb_bread st PANTRYFS_INODE_STORE_DATABLOCK_NUMBER = true ->
      sb_bread st db_no = true ->
      fst (fst (pantryfs_read st i len (i_size i) true))
      = Z.min len (PFS_BLOCK_SIZE - i_size i)
      /\ 0 < fst (fst (pantryfs_read st i len (i_size i) true)))
  /\ (ppos < PFS_BLOCK_SIZE ->
      (sb_bread st PANTRYFS_INODE_STORE_DATABLOCK_NUMBER = false
       \/ sb_bread st db_no = false ->
       pantryfs_read st i len ppos user_ok = (- EIO, ppos, []))
      /\ (sb_bread st PANTRYFS_INODE_STORE_DATABLOCK_NUMBER = true ->
          sb_bread st db_no = true -> user_ok = false ->
          pantryfs_read st i len ppos user_ok = (- EFAULT, ppos, []))).
Proof.
  intros Hino db_no.
  pose proof (eq_refl : PFS_BLOCK_SIZE = 4096) as HB.
  assert (H63 : 4096 < 2 ^ 63) by reflexivity.
  split; [| split].
  - unfold pantryfs_read, PFS_datablock_no_from_inode. rewrite Hino. reflexivity.
  - intros Hsz Hlen Hsum Hi Hd. unfold pantryfs_read.
    destruct (Z.eqb_spec (i_size i) PFS_BLOCK_SIZE) as [Heq | _]; [lia |].
    destruct (Z.gtb_spec (i_size i) PFS_BLOCK_SIZE) as [Hgt | _]; [lia |].
    fold db_no. rewrite Hi, Hd. cbn [negb fst].
    destruct (clip_count len (i_size i)) as [Hc1 _]; [lia | lia | lia |].
    rewrite Hc1. split; [reflexivity | lia].
  - intros Hp. unfold pantryfs_read.
    destruct (Z.eqb_spec ppos PFS_BLOCK_SIZE) as [Heq | _]; [lia |].
    destruct (Z.gtb_spec ppos PFS_BLOCK_SIZE) as [Hgt | _]; [lia |].
    fold db_no. split.
    + intros [-> | Hd]; [reflexivity |].
      destruct (sb_bread st PANTRYFS_INODE_STORE_DATABLOCK_NUMBER);
        cbn [negb]; [rewrite Hd |]; reflexivity.
    + intros -> -> ->. reflexivity.
Qed.

Lemma X17_read_ignores_file_size_witness :
  i_size (hello_inode 1) = 12
  /\ fst (fst (pantryfs_read (img 1) (hello_inode 1) 100 12 true)) = 100.
Proof.
  split; [reflexivity |].
  destruct (X17_read_ignores_file_size (img 1) (hello_inode 1) (hello_inode 1)
              100 12 true) as (_ & H & _); [reflexivity |].
  destruct H as [H _];
    [vm_compute; split; [discriminate | reflexivity] | lia
     | vm_compute; reflexivity | reflexivity | reflexivity |].
  exact H.
Defined.

(** ** pantryfs_fill_super *)

(** X18.  Mounting on a host cache that holds no inode numbered 0 on the
    chain of key 0: when both blocks can be read, the magic number matches
    and the host can allocate, [pantryfs_fill_super] returns 0 with a root
    inode that has number 1, mode [0777 | S_IFDIR], size 4096 and the
    directory operations whatever mode and size the record in slot 0
    holds, takes link count, owner, group and timestamps from that record,
    and is put at the head of the chain of key 0 with [I_NEW] clear. *)
Theorem X18_fill_super_synthesizes_root (st : pfs) (cache : gmap Z (list inode)) :
  sb_bread st PANTRYFS_SUPERBLOCK_DATABLOCK_NUMBER = true ->
  magic (b_sb (buf st)) = PANTRYFS_MAGIC_NUMBER ->
  sb_bread st PANTRYFS_INODE_STORE_DATABLOCK_NUMBER = true ->
  find_inode_fast (hash_chain cache 0) 0 = None ->
  let r := load_inode (b_istore (buf st)) (Some 0%nat) in
  exists root,
    pantryfs_fill_super st cache true true true
    = Returns (0, Some root, <[0 := root :: hash_chain cache 0]> cache)
    /\ i_ino root = 1 /\ i_mode root = Z.lor 511 S_IFDIR
    /\ i_size root = PFS_BLOCK_SIZE /\ i_fop root = pantryfs_dir_ops
    /\ i_nlink root = nlink r /\ i_uid root = uid r /\ i_gid root = gid r
    /\ vi_atime root = i_atime r /\ vi_mtime root = i_mtime r
    /\ vi_ctime root = i_ctime r
    /\ Z.land (i_state root) I_NEW = 0.
Proof.
  intros Hsb Hmagic Hi Hc r.
  exists (fill_inode (fresh_inode 0) PANTRYFS_ROOT_INODE_NUMBER r).
  split.
  - unfold pantryfs_fill_super. rewrite Hsb, Hi, Hmagic, Z.eqb_refl. cbn [negb].
    fold r.
    destruct (pfs_inode_miss cache PANTRYFS_ROOT_INODE_NUMBER r Hc) as (-> & _).
    reflexivity.
  - unfold fill_inode. cbn. rewrite orb_true_r. repeat split.
Qed.

Lemma X18_fill_super_synthesizes_root_witness :
  exists root,
    pantryfs_fill_super (img 1) ∅ true true true
    = Returns (0, Some root, {[ 0 := [root] ]})
    /\ i_mode root = 16895 /\ i_size root = 4096.
Proof.
  destruct (X18_fill_super_synthesizes_root (img 1) ∅)
    as (root & H1 & _ & H2 & H3 & _);
    [reflexivity | reflexivity | reflexivity | vm_compute; reflexivity |].
  exists root. split; [exact H1 |]. split; [exact H2 | exact H3].
Defined.

(** X19.  The failures of [pantryfs_fill_super].  It returns [-EIO] when
    the superblock cannot be read, [-EINVAL] when its magic number is not
    [PANTRYFS_MAGIC_NUMBER] and [-EIO] when the inode store cannot be
    read, and leaves the host cache as it was.  Past these reads a failed
    allocation is not reported: when [kmalloc] fails the code copies to
    NULL, and when the host cannot allocate the inode the code passes NULL
    to [unlock_new_inode]; neither call returns.  So whenever
    [d_make_root] succeeds, a call that returns past the reads returns 0
    with a root: the [-ENOMEM] the source assigns when [pfs_inode] gives
    NULL is never handed to the caller. *)
Theorem X19_fill_super_failures (st : pfs) (cache : gmap Z (list inode))
    (kmalloc_ok alloc_ok dentry_ok : bool) :
  let res := pantryfs_fill_super st cache kmalloc_ok alloc_ok dentry_ok in
  (sb_bread st PANTRYFS_SUPERBLOCK_DATABLOCK_NUMBER = false ->
   res = Returns (- EIO, None, cache))
  /\ (sb_bread st PANTRYFS_SUPERBLOCK_DATABLOCK_NUMBER = true ->
      magic (b_sb (buf st)) <> PANTRYFS_MAGIC_NUMBER ->
      res = Returns (- EINVAL, None, cache))
  /\ (sb_bread st PANTRYFS_SUPERBLOCK_DATABLOCK_NUMBER = true ->
      magic (b_sb (buf st)) = PANTRYFS_MAGIC_NUMBER ->
      (sb_bread st PANTRYFS_INODE_STORE_DATABLOCK_NUMBER = false ->
       res = Returns (- EIO, None, cache))
      /\ (sb_bread st PANTRYFS_INODE_STORE_DATABLOCK_NUMBER = true ->
          (kmalloc_ok = false -> res = Faults)
          /\ (find_inode_fast (hash_chain cache 0) 0 = None -> alloc_ok = false ->
              res = Faults)
          /\ (dentry_ok = true -> forall ret root c,
                res = Returns (ret, root, c) -> ret = 0 /\ root <> None))).
Proof.
  intros res. subst res. unfold pantryfs_fill_super.
  split; [intros ->; reflexivity |].
  split.
  - intros -> Hm. cbn [negb].
    destruct (Z.eqb_spec PANTRYFS_MAGIC_NUMBER (magic (b_sb (buf st))));
      [congruence | reflexivity].
  - intros -> ->. rewrite Z.eqb_refl. cbn [negb].
    split; [intros ->; reflexivity |].
    intros ->. cbn [negb].
    split; [intros ->; reflexivity |].
    split.
    + intros Hc ->. destruct kmalloc_ok; [| reflexivity]. cbn [negb].
      destruct (pfs_inode_miss cache PANTRYFS_ROOT_INODE_NUMBER
                  (load_inode (b_istore (buf st)) (Some O)) Hc) as (_ & -> & _).
      reflexivity.
    + intros -> ret root c. destruct kmalloc_ok; [| discriminate]. cbn [negb].
      destruct (pfs_inode cache alloc_ok _ _) as [[? ?] |]; [| discriminate].
      intros [= <- <- <-]. split; [reflexivity | discriminate].
Qed.

Lemma X19_fill_super_failures_witness :
  pantryfs_fill_super img_bad_magic ∅ true true true = Returns (- EINVAL, None, ∅)
  /\ pantryfs_fill_super (img 1) ∅ true false true = Faults.
Proof.
  destruct (X19_fill_super_failures img_bad_magic ∅ true true true) as (_ & H & _).
  destruct (X19_fill_super_failures (img 1) ∅ true false true) as (_ & _ & H').
  split; [apply H; [reflexivity | vm_compute; discriminate] |].
  destruct H' as [_ H']; [reflexivity | reflexivity |].
  destruct H' as (_ & H' & _); [reflexivity |].
  apply H'; vm_compute; reflexivity.
Defined.

(** ** pantryfs_lookup *)

(** X20.  The name-length check of [pantryfs_lookup]: a name longer than
    [PANTRYFS_MAX_FILENAME_LENGTH] gives [-ENAMETOOLONG] whatever the
    state, unreadable blocks included, and leaves the cache alone; a name
    of at most that length never gives [-ENAMETOOLONG]. *)
Theorem X20_lookup_name_length_boundary (L : layout) (st : pfs)
    (cache : gmap Z (list inode)) (alloc_ok : bool) (parent : inode)
    (name : list Z) :
  let res := pantryfs_lookup L st cache alloc_ok parent name in
  (Z.of_nat (length name) > PANTRYFS_MAX_FILENAME_LENGTH L ->
   res = (- ENAMETOOLONG, None, cache))
  /\ (Z.of_nat (length name) <= PANTRYFS_MAX_FILENAME_LENGTH L ->
      fst (fst res) <> - ENAMETOOLONG).
Proof.
  intros res. subst res. unfold pantryfs_lookup. split.
  - intros Hlong.
    destruct (Z.gtb_spec (Z.of_nat (length name)) (PANTRYFS_MAX_FILENAME_LENGTH L));
      [reflexivity | lia].
  - intros Hok.
    destruct (Z.gtb_spec (Z.of_nat (length name)) (PANTRYFS_MAX_FILENAME_LENGTH L));
      [lia |].
    destruct (negb (sb_bread st _)); [discriminate |].
    destruct (negb (sb_bread st _)); [discriminate |].
    destruct (lookup_loop L _ name _ 0); [| discriminate].
    destruct (pfs_inode cache alloc_ok _ _) as [[? ?] |]; discriminate.
Qed.


Lemma X20_lookup_name_length_boundary_witness :
  pantryfs_lookup layout64 img_unreadable ∅ true root_inode (replicate 247 97)
  = (- ENAMETOOLONG, None, ∅)
  /\ fst (fst (pantryfs_lookup layout64 (img 1) ∅ true root_inode (replicate 246 97)))
     <> - ENAMETOOLONG.
Proof.
  destruct (X20_lookup_name_length_boundary layout64 img_unreadable ∅ true
              root_inode (replicate 247 97)) as [H1 _].
  destruct (X20_lookup_name_length_boundary layout64 (img 1) ∅ true
              root_inode (replicate 246 97)) as [_ H2].
  split; [apply H1; vm_compute; reflexivity | apply H2; vm_compute; discriminate].
Defined.

(** X21.  [pantryfs_lookup] and the host cache: whatever the outcome, no
    chain other than the chain of key 0 changes; when the call binds no
    inode the cache is unchanged; when it binds an inode, that inode sits
    on the chain of key 0 afterwards, with [I_NEW] clear. *)
Theorem X21_lookup_cache_discipline (L : layout) (st : pfs)
    (cache : gmap Z (list inode)) (alloc_ok : bool) (parent : inode)
    (name : list Z) :
  let res := pantryfs_lookup L st cache alloc_ok parent name in
  (forall k, k <> 0 -> snd res !! k = cache !! k)
  /\ (snd (fst res) = None -> snd res = cache)
  /\ (forall i, snd (fst res) = Some i ->
        fst (fst res) = 0 /\ i ∈ hash_chain (snd res) 0
        /\ Z.land (i_state i) I_NEW = 0).
Proof.
  intros res. subst res. unfold pantryfs_lookup.
  destruct (_ >? _); [repeat split; discriminate |].
  destruct (negb (sb_bread st _)); [repeat split; discriminate |].
  destruct (negb (sb_bread st _)); [repeat split; discriminate |].
  destruct (lookup_loop L _ name _ 0) as [e |]; [| repeat split; discriminate].
  destruct (pfs_inode cache alloc_ok _ _) as [[i c] |] eqn:Hp;
    [| repeat split; discriminate].
  destruct (pfs_inode_uses_key_0 _ _ _ _ _ _ Hp) as (H0 & Hn & Hk).
  cbn [fst snd]. split; [exact Hk |]. split; [discriminate |].
  intros i' [= <-]. split; [reflexivity |]. split; [exact H0 | exact Hn].
Qed.

Lemma X21_lookup_cache_discipline_witness :
  let res := pantryfs_lookup layout64 (img 1) ∅ true root_inode name_hello in
  exists i, snd (fst res) = Some i /\ i ∈ hash_chain (snd res) 0.
Proof.
  destruct (X21_lookup_cache_discipline layout64 (img 1) ∅ true root_inode name_hello)
    as (_ & _ & H).
  cbv zeta. eexists. split; [vm_compute; reflexivity |].
  apply H. vm_compute. reflexivity.
Defined.

(** X22.  What [pantryfs_lookup] finds.  With a name within the length
    limit, readable blocks and a host that can allocate, the call binds an
    inode exactly when some slot of the parent's block is active and holds
    a name equal to the given one over the size of the name buffer;
    inactive slots are passed over, and when there is no such slot the
    call returns 0, binds nothing and leaves the cache alone. *)
Theorem X22_lookup_finds_active_matching_entry (L : layout) (st : pfs)
    (cache : gmap Z (list inode)) (parent : inode) (name : list Z) :
  0 < sizeof_pantryfs_dir_entry L ->
  Z.of_nat (length name) <= PANTRYFS_MAX_FILENAME_LENGTH L ->
  sb_bread st PANTRYFS_INODE_STORE_DATABLOCK_NUMBER = true ->
  let par_no := PFS_datablock_no_from_inode (b_istore (buf st)) parent in
  sb_bread st par_no = true ->
  let d := dir_view L (buf st) par_no in
  let res := pantryfs_lookup L st cache true parent name in
  ((exists j, 0 <= j < PFS_MAX_CHILDREN L
              /\ truthy (active (dentry_at L d j)) = true
              /\ strncmp_eq (filename (dentry_at L d j)) name
                   (Z.to_nat (PANTRYFS_FILENAME_BUF_SIZE L)) = true)
   <-> exists i, snd (fst res) = Some i)
  /\ ((forall j, 0 <= j < PFS_MAX_CHILDREN L ->
         truthy (active (dentry_at L d j)) = false
         \/ strncmp_eq (filename (dentry_at L d j)) name
              (Z.to_nat (PANTRYFS_FILENAME_BUF_SIZE L)) = false) ->
      res = (0, None, cache)).
Proof.
  intros Hs Hlen Hi par_no Hd d res.
  pose proof (PFS_MAX_CHILDREN_nonneg L Hs) as Hmax.
  subst res. unfold pantryfs_lookup.
  destruct (Z.gtb_spec (Z.of_nat (length name)) (PANTRYFS_MAX_FILENAME_LENGTH L));
    [lia |].
  fold par_no. rewrite Hi, Hd. cbn [negb]. fold d.
  destruct (lookup_loop L d name (Z.to_nat (PFS_MAX_CHILDREN L)) 0) as [e |] eqn:Hl.
  - destruct (lookup_loop_some _ _ _ _ _ _ Hl) as (j & Hj & -> & Hm & _).
    unfold matches in Hm. apply andb_true_iff in Hm as [Ha Hn].
    destruct (pfs_inode_alloc_ok cache (inode_no (dentry_at L d j))
                (load_inode (b_istore (buf st))
                   (PFS_inode_from_istore (inode_no (dentry_at L d j)))))
      as (i & c & ->).
    cbn [fst snd]. split.
    + split; [intros _; exists i; reflexivity |].
      intros _. exists j. split; [lia |]. split; assumption.
    + intros Hnone. destruct (Hnone j ltac:(lia)); congruence.
  - pose proof (lookup_loop_none_inv _ _ _ _ _ Hl) as Hnone.
    cbn [fst snd]. split; [| reflexivity].
    split; [| intros [i Hsome]; discriminate].
    intros (j & Hj & Ha & Hn). specialize (Hnone j ltac:(lia)).
    unfold matches in Hnone. rewrite Ha, Hn in Hnone. discriminate.
Qed.

Lemma X22_lookup_finds_active_matching_entry_witness :
  (exists i, snd (fst (pantryfs_lookup layout64 (img 1) ∅ true root_inode name_hello))
             = Some i).
Proof.
  destruct (X22_lookup_finds_active_matching_entry layout64 (img 1) ∅ root_inode
              name_hello) as [H _];
    [reflexivity | vm_compute; discriminate | reflexivity | reflexivity |].
  apply H. exists 0. split; [vm_compute; split; [discriminate | reflexivity] |].
  split; vm_compute; reflexivity.
Defined.





Lemma iterate_loop_collect (L : layout) (d : list pantryfs_dir_entry)
    (dir_mode : Z) (n s : nat) (p : Z) (a : list dirent) :
  iterate_loop L collect d dir_mode n (Z.of_nat s) (mkCtx p a)
  = mkCtx (p + Z.of_nat (length (active_slots L d s n)))
          (a ++ imap (emitted L dir_mode p) (active_slots L d s n)).
Proof.
  revert s p a. induction n as [| n IH]; intros s p a.
  - cbn. rewrite Z.add_0_r, app_nil_r. reflexivity.
  - cbn [iterate_loop]. unfold active_slots, slots_from in *.
    cbn [seq map List.filter].
    replace (Z.of_nat s + 1) with (Z.of_nat (S s)) by lia.
    destruct (truthy (active (dentry_at L d (Z.of_nat s)))) eqn:Ha; cbn [negb].
    + unfold dir_emit, collect. cbn [pos actor_data negb].
      rewrite IH. cbn [length imap]. f_equal; [lia |].
      rewrite <- app_assoc. cbn [app]. f_equal. f_equal.
      * unfold emitted. rewrite Z.add_0_r. reflexivity.
      * apply imap_ext. intros k e _. unfold emitted. cbn.
        f_equal. lia.
    + apply IH.
Qed.

(** X23.  A complete listing.  With a callback that takes every entry and
    readable blocks, a call from position 0 returns 0 and hands over ".",
    "..", then one entry for every active slot of the directory block, in
    slot order, with the name buffer and the inode number of the slot and
    the positions 2, 3, ...; inactive slots give nothing; the cursor ends
    at [PFS_MAX_CHILDREN + 3].  A call from a position 2 <= p <=
    [PFS_MAX_CHILDREN + 2] hands over no dots and every active slot again,
    from slot 0, numbered from [p]. *)
Theorem X23_iterate_lists_active_slots (L : layout) (st : pfs) (dir_inode : inode)
    (parent_ino : Z) :
  0 < sizeof_pantryfs_dir_entry L ->
  sb_bread st PANTRYFS_INODE_STORE_DATABLOCK_NUMBER = true ->
  let db_no := PFS_datablock_no_from_inode (b_istore (buf st)) dir_inode in
  sb_bread st db_no = true ->
  let act := active_slots L (dir_view L (buf st) db_no) 0
               (Z.to_nat (PFS_MAX_CHILDREN L)) in
  pantryfs_iterate L collect st dir_inode parent_ino (mkCtx 0 [])
  = (0, mkCtx (PFS_MAX_CHILDREN L + 3)
          ([mkDirent [46] 1 0 (i_ino dir_inode) DT_DIR;
            mkDirent [46; 46] 2 1 parent_ino DT_DIR]
           ++ imap (emitted L (i_mode dir_inode) 2) act))
  /\ (forall p a, 2 <= p <= PFS_MAX_CHILDREN L + 2 ->
        pantryfs_iterate L collect st dir_inode parent_ino (mkCtx p a)
        = (0, mkCtx (PFS_MAX_CHILDREN L + 3)
                (a ++ imap (emitted L (i_mode dir_inode) p) act))).
Proof.
  intros Hs Hi db_no Hd act.
  pose proof (PFS_MAX_CHILDREN_nonneg L Hs) as Hmax.
  split.
  - unfold pantryfs_iterate. cbn [pos].
    destruct (Z.gtb_spec 0 (PFS_MAX_CHILDREN L + 2)); [lia |].
    cbn. rewrite Hi. fold db_no. rewrite Hd. cbn [negb].
    rewrite (iterate_loop_collect L _ _ _ 0%nat). reflexivity.
  - intros p a Hp. unfold pantryfs_iterate. cbn [pos].
    destruct (Z.gtb_spec p (PFS_MAX_CHILDREN L + 2)); [lia |].
    unfold dir_emit_dots. cbn [pos].
    destruct (Z.eqb_spec p 0); [lia |]. cbn [negb pos].
    destruct (Z.eqb_spec p 1); [lia |]. cbn [negb].
    rewrite Hi. fold db_no. rewrite Hd. cbn [negb].
    rewrite (iterate_loop_collect L _ _ _ 0%nat). reflexivity.
Qed.

Lemma X23_iterate_lists_active_slots_witness :
  pantryfs_iterate layout64 collect img_two root_inode 1 (mkCtx 0 [])
  = (0, mkCtx 19
          [mkDirent [46] 1 0 1 DT_DIR; mkDirent [46; 46] 2 1 1 DT_DIR;
           mkDirent (strncpy name_a 247) 494 2 2 4;
           mkDirent (strncpy name_b 247) 494 3 3 4]).
Proof.
  destruct (X23_iterate_lists_active_slots layout64 img_two root_inode 1) as [H _];
    [reflexivity | reflexivity | reflexivity |].
  rewrite H. vm_compute. reflexivity.
Defined.



(** ** PFS_remove_inode and pantryfs_evict_inode *)

(** X24.  What the reclamation changes and what it leaves alone, for an
    inode number and a data block number that lie inside the two bit
    vectors of the superblock.  Counting bits from the start of
    [free_inodes] on through [free_data_blocks], which follows it in the
    struct, [PFS_remove_inode] sets no bit and changes no bit other than
    the one numbered like the inode and the one numbered like its data
    block.  When both numbers index a word of [free_inodes] it leaves
    [free_data_blocks] as it was; when the data block number is past the
    words of [free_inodes] the second clear lands in [free_data_blocks],
    on the bit that many places further.  It leaves the version and the
    magic number, every record but the one of the inode, and every block
    other than block 0 and block 1 as they were, and the superblock and
    the inode store read the same on the device as in the buffer cache
    afterwards.  [pantryfs_evict_inode] does nothing at all when the inode
    store or the superblock cannot be read. *)
Theorem X24_remove_inode_frame (st : pfs) (i : inode) :
  let db_no := PFS_datablock_no_from_inode (b_istore (buf st)) i in
  let fi := free_inodes (b_sb (buf st)) in
  let fdb := free_data_blocks (b_sb (buf st)) in
  let st' := PFS_remove_inode st i in
  let fi' := free_inodes (b_sb (buf st')) in
  let fdb' := free_data_blocks (b_sb (buf st')) in
  (0 <= i_ino i < 32 * Z.of_nat (length fi + length fdb) ->
   0 <= db_no < 32 * Z.of_nat (length fi + length fdb) ->
   (length fi' = length fi /\ length fdb' = length fdb)
   /\ (forall j, 0 <= j ->
         truthy (IS_SET (fi' ++ fdb') j)
         = negb (j =? i_ino i) && negb (j =? db_no)
           && truthy (IS_SET (fi ++ fdb) j))
   /\ (i_ino i < 32 * Z.of_nat (length fi) -> db_no < 32 * Z.of_nat (length fi) ->
       fdb' = fdb
       /\ forall j, 0 <= j ->
            truthy (IS_SET fi' j)
            = negb (j =? i_ino i) && negb (j =? db_no) && truthy (IS_SET fi j))
   /\ (i_ino i < 32 * Z.of_nat (length fi) -> 32 * Z.of_nat (length fi) <= db_no ->
       forall j, 0 <= j ->
         truthy (IS_SET fdb' j)
         = negb (j =? db_no - 32 * Z.of_nat (length fi)) && truthy (IS_SET fdb j))
   /\ version (b_sb (buf st')) = version (b_sb (buf st))
   /\ magic (b_sb (buf st')) = magic (b_sb (buf st))
   /\ (forall k, PFS_inode_from_istore (i_ino i) <> Some k ->
         load_inode (b_istore (buf st')) (Some k)
         = load_inode (b_istore (buf st)) (Some k))
   /\ (forall m, m <> PANTRYFS_SUPERBLOCK_DATABLOCK_NUMBER ->
         m <> PANTRYFS_INODE_STORE_DATABLOCK_NUMBER ->
         same_block (buf st) (buf st') m /\ same_block (dsk st) (dsk st') m)
   /\ b_sb (dsk st') = b_sb (buf st') /\ b_istore (dsk st') = b_istore (buf st'))
  /\ (sb_bread st PANTRYFS_INODE_STORE_DATABLOCK_NUMBER = false
      \/ sb_bread st PANTRYFS_SUPERBLOCK_DATABLOCK_NUMBER = false ->
      pantryfs_evict_inode st i = st).
Proof.
  intros db_no fi fdb st' fi' fdb'. split.
  - intros Hino Hdb.
    destruct (PFS_remove_inode_sb st i) as [Hb Hd]. fold db_no st' in Hb, Hd.
    assert (Hwords : fi' ++ fdb' = CLEARBIT (CLEARBIT (fi ++ fdb) (i_ino i)) db_no).
    { subst fi' fdb'. rewrite Hb, CLEARBIT_free_inodes_words.
      rewrite CLEARBIT_free_inodes_words. reflexivity. }
    split.
    { subst fi' fdb'. rewrite Hb.
      destruct (CLEARBIT_free_inodes_length
                  (CLEARBIT_free_inodes (b_sb (buf st)) (i_ino i)) db_no) as [-> ->].
      apply CLEARBIT_free_inodes_length. }
    split.
    { intros j Hj. rewrite Hwords, !truthy_IS_SET_CLEARBIT by lia.
      destruct (j =? i_ino i), (j =? db_no); cbn [negb andb]; reflexivity. }
    split.
    { intros Hi1 Hd1.
      destruct (PFS_remove_inode_data_bitmap st i Hi1 Hd1) as (Hfi & Hfd & _).
      fold db_no st' fi' fi in Hfi. fold st' fdb' fdb in Hfd.
      split; [exact Hfd |].
      intros j Hj. rewrite Hfi, !truthy_IS_SET_CLEARBIT by lia.
      destruct (j =? i_ino i), (j =? db_no); cbn [negb andb]; reflexivity. }
    split.
    { intros Hi1 Hd1 j Hj.
      destruct (PFS_remove_inode_reaches_data_bitmap st i Hi1 Hd1) as (_ & Hfd).
      fold db_no st' fdb' fdb fi in Hfd.
      rewrite Hfd, truthy_IS_SET_CLEARBIT by lia. reflexivity. }
    split; [rewrite Hb; reflexivity |].
    split; [rewrite Hb; reflexivity |].
    subst st'. unfold PFS_remove_inode.
    unfold sync_istore, sync_sb, with_dsk, with_buf, set_istore, set_sb.
    cbn [dsk buf b_sb b_istore b_dir b_data].
    split.
    { intros k Hk. unfold load_inode, store_inode.
      destruct (PFS_inode_from_istore (i_ino i)) as [s |]; [| reflexivity].
      cbn [mbind option_bind]. rewrite list_lookup_insert_ne by congruence.
      reflexivity. }
    split; [| split; reflexivity].
    intros m H0 H1. unfold same_block. cbn [b_sb b_istore b_dir b_data].
    repeat split; intros; congruence.
  - unfold pantryfs_evict_inode.
    intros [-> | Hs]; [reflexivity |].
    rewrite Hs. destruct (negb (sb_bread st _)); reflexivity.
Qed.

Lemma X24_remove_inode_frame_witness :
  (let st' := PFS_remove_inode img_created a_inode in
   truthy (IS_SET (free_inodes (b_sb (buf st'))) 1) = true
   /\ truthy (IS_SET (free_inodes (b_sb (buf st'))) 2) = false
   /\ free_data_blocks (b_sb (buf st')) = free_data_blocks (b_sb (buf img_created))
   /\ load_inode (b_istore (buf st')) (Some 0%nat) = root_rec)
  /\ (let st' := PFS_remove_inode img_far (hello_inode 1) in
      PFS_datablock_no_from_inode (b_istore (buf img_far)) (hello_inode 1) = 67
      /\ truthy (IS_SET (free_data_blocks (b_sb (buf img_far))) 3) = true
      /\ truthy (IS_SET (free_data_blocks (b_sb (buf st'))) 3) = false)
  /\ pantryfs_evict_inode img_unreadable a_inode = img_unreadable.
Proof.
  destruct (X24_remove_inode_frame img_created a_inode) as [H _].
  destruct H as (_ & _ & H1 & _ & _ & _ & H2 & _);
    [vm_compute; split; [discriminate | reflexivity]
     | vm_compute; split; [discriminate | reflexivity] |].
  destruct H1 as [H1 H1']; [vm_compute; reflexivity | vm_compute; reflexivity |].
  destruct (X24_remove_inode_frame img_far (hello_inode 1)) as [H _].
  destruct H as (_ & _ & _ & H4 & _);
    [vm_compute; split; [discriminate | reflexivity]
     | vm_compute; split; [discriminate | reflexivity] |].
  destruct (X24_remove_inode_frame img_unreadable a_inode) as [_ H3].
  cbv zeta. split; [| split].
  - split; [rewrite H1' by lia; vm_compute; reflexivity |].
    split; [rewrite H1' by lia; vm_compute; reflexivity |].
    split; [exact H1 |].
    apply H2; vm_compute; discriminate.
  - split; [vm_compute; reflexivity |]. split; [vm_compute; reflexivity |].
    rewrite H4; [vm_compute; reflexivity | vm_compute; reflexivity
                 | vm_compute; discriminate | lia].
  - apply H3. left. reflexivity.
Defined.

(** ** Create, then unlink *)


